(** * Slideshow generator: [create_video_from_images] (src/image_to_video.py)

    A shallow embedding of the slideshow builder and the properties of its
    timeline, layout, animation and audio reconciliation.

    Numbers.  Python's [int] is [Z].  Python's [float] is the binary64
    type [float] of the kernel, with its correctly rounded operations:
    every arithmetic expression of the source on image sizes, scale
    factors, start times and durations is transcribed operator by operator
    and rounds as the program does.  The times inside an audio track are
    exact rationals ([Q]): the only arithmetic done on them, the remainder
    of the loop effect and a subtraction of 0, is exact in binary64.

    Library.  The calls into MoviePy are modelled in [Module MoviePy] at the
    level the function observes: frame sizes, positions, start/end times and
    durations, and the exceptions of the resizer.  Pixels are not
    modelled. *)

From Stdlib Require Import ZArith QArith Qround Qminmax.
From Stdlib Require Import Floats.
From Stdlib Require Import List String Ascii Bool Lia Lqa.
From Stdlib Require Import Sorting.Sorted Sorting.Permutation.
Import ListNotations.

Set Warnings "-inexact-float".

Local Open Scope string_scope.
Local Open Scope list_scope.
Local Open Scope Z_scope.

(** ** Python primitives used by the source *)

Module Py.

(** Exceptions that the modelled operations raise. *)
Inductive exn :=
| ZeroDivisionError
| OSError
| TypeError
| ValueError
| OverflowError.

(** Sequencing of results that may be an exception. *)
Definition bindE {A B} (r : exn + A) (k : A -> exn + B) : exn + B :=
  match r with
  | inl e => inl e
  | inr x => k x
  end.

(** [float(z)] and the conversion of an [int] operand in mixed
    arithmetic: the nearest binary64, ties to even (exact up to 2^53).
    An int of 2^1024 or more, for which Python raises OverflowError,
    becomes an infinity here; no image side, canvas side or file count is
    that large. *)
Definition float_of_int (z : Z) : float :=
  SF2Prim (binary_normalize prec emax z 0 false).

(** [int(x)] on a float: truncation toward zero; ValueError on a NaN,
    OverflowError on an infinity. *)
Definition int (x : float) : exn + Z :=
  match Prim2SF x with
  | S754_zero _ => inr 0
  | S754_finite s m e =>
      let v := match e with
               | Zneg p => Z.shiftr (Zpos m) (Zpos p)
               | _ => Z.shiftl (Zpos m) e
               end in
      inr (if s then - v else v)
  | S754_infinity _ => inl OverflowError
  | S754_nan => inl ValueError
  end.

(** [a / b] on floats: ZeroDivisionError on a zero divisor (of either sign). *)
Definition truediv (a b : float) : exn + float :=
  if (b =? 0)%float then inl ZeroDivisionError else inr (a / b)%float.

(** [a / b] on ints: ZeroDivisionError on a zero divisor, else the
    binary64 quotient (both operands are exact as floats up to 2^53). *)
Definition int_truediv (a b : Z) : exn + float :=
  if Z.eqb b 0 then inl ZeroDivisionError
  else inr (float_of_int a / float_of_int b)%float.

(** [min(a, b)]: the first argument unless the second is strictly smaller. *)
Definition min (a b : float) : float := if (b <? a)%float then b else a.

(** [max(l)] of a list of floats: the first element, replaced by each
    later one that is strictly larger; ValueError on the empty list. *)
Definition max (l : list float) : exn + float :=
  match l with
  | [] => inl ValueError
  | x :: r => inr (fold_left (fun cur y => if (cur <? y)%float then y else cur) r x)
  end.

(** The exact value of a finite float. *)
Definition exact (x : float) : option Q :=
  match Prim2SF x with
  | S754_zero _ => Some 0%Q
  | S754_finite s m e =>
      let n := if s then Zneg m else Zpos m in
      Some match e with
           | Zneg p => Qmake n (Pos.shiftl 1 (Npos p))
           | _ => inject_Z (Z.shiftl n e)
           end
  | _ => None
  end.

(** [a % b] on floats, with the sign of the divisor, on the exact values:
    a - b*floor(a/b) (the float result is exact for a >= 0 and b > 0);
    ZeroDivisionError on a zero divisor. *)
Definition mod_ (a b : Q) : exn + Q :=
  if Qeq_bool b 0 then inl ZeroDivisionError
  else inr (a - b * inject_Z (Qfloor (a / b)))%Q.

(** [c.lower()] on one ASCII character. *)
Definition lower_ascii (c : ascii) : ascii :=
  let n := nat_of_ascii c in
  if (andb (Nat.leb 65 n) (Nat.leb n 90)) then ascii_of_nat (n + 32) else c.

(** [s.lower()] (file names are taken to be ASCII). *)
Fixpoint lower (s : string) : string :=
  match s with
  | EmptyString => EmptyString
  | String c r => String (lower_ascii c) (lower r)
  end.

(** [s.endswith(suf)] for one suffix. *)
Definition endswith1 (s suf : string) : bool :=
  let n := String.length s in
  let m := String.length suf in
  andb (Nat.leb m n) (String.eqb (substring (n - m) m s) suf).

(** [s.endswith((suf1, ..., sufk))]. *)
Definition endswith (s : string) (sufs : list string) : bool :=
  existsb (endswith1 s) sufs.

(** [os.path.join(a, b)] for a relative [b]. *)
Definition path_join (a b : string) : string :=
  if orb (String.eqb a "") (endswith1 a "/") then a ++ b else a ++ "/" ++ b.

(** [len(l)]. *)
Definition len {A} (l : list A) : Z := Z.of_nat (List.length l).

(** [l.sort()] on a list of file names: ascending code-point
    lexicographic order, equal names kept in their order. *)
Fixpoint insert (x : string) (l : list string) : list string :=
  match l with
  | [] => [x]
  | y :: r => if String.leb x y then x :: y :: r else y :: insert x r
  end.

Fixpoint sort (l : list string) : list string :=
  match l with
  | [] => []
  | x :: r => insert x (sort r)
  end.

End Py.

Declare Scope exn_scope.
Delimit Scope exn_scope with exn.
Notation "x <- m ;; k" := (Py.bindE m (fun x => k))
  (at level 61, m at next level, right associativity) : exn_scope.

(** ** The MoviePy operations the function calls *)

Module MoviePy.

(** A clip position: explicit top-left coordinates, or the keyword
    ['center'].  A fresh clip sits at (0, 0). *)
Inductive position :=
| XY (x y : Z)
| Center.

(** What a clip shows. *)
Inductive source :=
| FromFile (path : string)
| Solid (color : Z * Z * Z).

(** A video clip as the compositor sees it.  [frame_size t] is the size
    of the frame at local time [t], or the exception raised while the
    frame is computed. *)
Record Clip := mkClip {
  shows : source;
  frame_size : float -> Py.exn + (Z * Z);
  pos : position;
  start : float;
  duration : option float;
  end_ : option float
}.

(** [clip.size]: the size of the frame at time 0. *)
Definition size (c : Clip) : Py.exn + (Z * Z) := frame_size c 0%float.

(** [ImageClip(path)] once the file decoded to an image of size [sz]. *)
Definition ImageClip (path : string) (sz : Z * Z) : Clip :=
  {| shows := FromFile path; frame_size := fun _ => inr sz; pos := XY 0 0;
     start := 0%float; duration := None; end_ := None |}.

(** [ColorClip(size, color=..., duration=...)]. *)
Definition ColorClip (sz : Z * Z) (color : Z * Z * Z) (d : float) : Clip :=
  {| shows := Solid color; frame_size := fun _ => inr sz; pos := XY 0 0;
     start := 0%float; duration := Some d; end_ := Some d |}.

(** The resizer on a target size: a target with an empty side is
    rejected (ValueError with the Pillow resizer). *)
Definition resizer (newsize : Z * Z) : Py.exn + (Z * Z) :=
  if andb (0 <? fst newsize) (0 <? snd newsize) then inr newsize
  else inl Py.ValueError.

(** The size [resize] gives a frame for a numeric factor [k] applied to a
    clip of size [(w, h)]: [(k*w, k*h)], cast to integers by the resizer. *)
Definition scaled (wh : Z * Z) (k : float) : Py.exn + (Z * Z) :=
  (w <- Py.int (k * Py.float_of_int (fst wh))%float ;;
   h <- Py.int (k * Py.float_of_int (snd wh))%float ;;
   resizer (w, h))%exn.

(** Installing a new frame function evaluates the frame at time 0. *)
Definition set_make_frame (fs : float -> Py.exn + (Z * Z)) (c : Clip) : Py.exn + Clip :=
  match fs 0%float with
  | inl e => inl e
  | inr _ =>
      inr {| shows := shows c; frame_size := fs; pos := pos c;
             start := start c; duration := duration c; end_ := end_ c |}
  end.

(** [clip.resize(lambda t: k(t))]: the frame at [t] is resized to
    [k(t)] times [clip.size]. *)
Definition resize_fun (newsize : float -> Py.exn + float) (c : Clip) : Py.exn + Clip :=
  match size c with
  | inl e => inl e
  | inr wh =>
      set_make_frame
        (fun t =>
           match frame_size c t with
           | inl e => inl e
           | inr _ =>
               match newsize t with
               | inl e => inl e
               | inr k => scaled wh k
               end
           end) c
  end.

(** [clip.resize((w, h))]: every frame is resized to [(w, h)]. *)
Definition resize (newsize : Z * Z) (c : Clip) : Py.exn + Clip :=
  match size c with
  | inl e => inl e
  | inr _ =>
      set_make_frame
        (fun t =>
           match frame_size c t with
           | inl e => inl e
           | inr _ => resizer newsize
           end) c
  end.

Definition set_position (p : position) (c : Clip) : Clip :=
  {| shows := shows c; frame_size := frame_size c; pos := p;
     start := start c; duration := duration c; end_ := end_ c |}.

(** [clip.set_duration(t)]: also moves the end. *)
Definition set_duration (t : float) (c : Clip) : Clip :=
  {| shows := shows c; frame_size := frame_size c; pos := pos c;
     start := start c; duration := Some t; end_ := Some (start c + t)%float |}.

(** [clip.set_start(t)]: moves the end when the duration is known,
    otherwise derives the duration from a known end. *)
Definition set_start (t : float) (c : Clip) : Clip :=
  match duration c with
  | Some d =>
      {| shows := shows c; frame_size := frame_size c; pos := pos c;
         start := t; duration := Some d; end_ := Some (t + d)%float |}
  | None =>
      {| shows := shows c; frame_size := frame_size c; pos := pos c;
         start := t;
         duration := match end_ c with Some e => Some (e - t)%float | None => None end;
         end_ := end_ c |}
  end.

(** An audio clip: its duration and, for a time [t] of the clip, the time
    of the decoded file that is heard, or the exception raised while that
    time is computed. *)
Record AudioClip := mkAudio {
  a_duration : option Q;
  a_source_time : Q -> Py.exn + Q
}.

(** [AudioFileClip(path)] once the file decoded to a track of length [d]. *)
Definition AudioFileClip (d : Q) : AudioClip :=
  {| a_duration := Some d; a_source_time := fun t => inr t |}.

(** [clip.fx(vfx.loop, duration=d)]: time runs modulo the clip's own
    duration; the new duration is set when [d] is truthy. *)
Definition loop (d : Q) (a : AudioClip) : Py.exn + AudioClip :=
  match a_duration a with
  | None => inl Py.ValueError
  | Some own =>
      inr {| a_duration := if Qeq_bool d 0 then None else Some d;
             a_source_time :=
               fun t =>
                 match Py.mod_ t own with
                 | inl e => inl e
                 | inr t' => a_source_time a t'
                 end |}
  end.

(** [clip.subclip(t_start, t_end)] with both bounds given. *)
Definition subclip (t_start t_end : Q) (a : AudioClip) : Py.exn + AudioClip :=
  match a_duration a with
  | Some own =>
      if Qlt_le_dec own t_start then inl Py.ValueError
      else
        let t_end' := if Qlt_le_dec t_end 0 then (own + t_end)%Q else t_end in
        inr {| a_duration := Some (t_end' - t_start)%Q;
               a_source_time := fun t => a_source_time a (t + t_start)%Q |}
  | None =>
      inr {| a_duration := Some (t_end - t_start)%Q;
             a_source_time := fun t => a_source_time a (t + t_start)%Q |}
  end.

(** The composition handed to the encoder. *)
Record CompositeVideoClip := mkComposite {
  clips : list Clip;
  comp_size : Z * Z;
  comp_duration : option float;
  audio : option AudioClip
}.

(** The ends of all layers, when every layer has one. *)
Fixpoint ends (l : list Clip) : option (list float) :=
  match l with
  | [] => Some []
  | c :: r =>
      match end_ c, ends r with
      | Some e, Some es => Some (e :: es)
      | _, _ => None
      end
  end.

(** [CompositeVideoClip(clips, size=...)]: the duration is the latest end
    of a layer when all layers have an end. *)
Definition Composite (l : list Clip) (sz : Z * Z) : CompositeVideoClip :=
  {| clips := l; comp_size := sz;
     comp_duration :=
       match ends l with
       | Some es => match Py.max es with inr m => Some m | inl _ => None end
       | None => None
       end;
     audio := None |}.

Definition set_audio (a : AudioClip) (v : CompositeVideoClip) : CompositeVideoClip :=
  {| clips := clips v; comp_size := comp_size v;
     comp_duration := comp_duration v; audio := Some a |}.

(** Where the compositor puts the top-left corner of a frame of size
    [fs] on a canvas of size [cs]. *)
Definition blit_origin (cs fs : Z * Z) (p : position) : Py.exn + (Z * Z) :=
  match p with
  | XY x y => inr (x, y)
  | Center =>
      (qx <- Py.int_truediv (fst cs - fst fs) 2 ;;
       qy <- Py.int_truediv (snd cs - snd fs) 2 ;;
       x <- Py.int qx ;;
       y <- Py.int qy ;;
       inr (x, y))%exn
  end.

End MoviePy.

(** ** The environment of one run *)

(** What the file system, the decoders and the encoder answer. *)
Record World := mkWorld {
  (** [os.listdir(folder)], or the exception it raises. *)
  listdir : string -> option (list string);
  (** [ImageClip(path)]: the size of the decoded image, or [None] when the
      constructor raises. *)
  load_image : string -> option (Z * Z);
  (** [os.path.exists(path)]. *)
  path_exists : string -> bool;
  (** [AudioFileClip(path)]: the length of the decoded track (the exact
      value of the float), or [None] when the constructor raises. *)
  load_audio : string -> option Q;
  (** Whether [write_videofile] to this path completes ([false]: raises). *)
  write_ok : string -> bool
}.

(** What a run does that is visible from outside, in order. *)
Inductive event :=
| NoImageFilesFound (image_folder : string)
| ErrorLoadingImage (img_path : string)
| ErrorAddingAudio
| CreatingVideo (n : nat)
| WriteVideofile (video : MoviePy.CompositeVideoClip) (output_file : string)
                 (fps : Z) (audio_codec : option string)
| VideoSaved (output_file : string)
| ErrorCreatingVideo.

(** ** A monad for the body: an event trace and exceptions *)

Definition M (A : Type) : Type := list event -> list event * (Py.exn + A).

Definition ret {A} (x : A) : M A := fun tr => (tr, inr x).

Definition bind {A B} (m : M A) (k : A -> M B) : M B :=
  fun tr =>
    match m tr with
    | (tr', inl e) => (tr', inl e)
    | (tr', inr x) => k x tr'
    end.

Definition raise {A} (e : Py.exn) : M A := fun tr => (tr, inl e).

Definition emit (ev : event) : M unit := fun tr => (tr ++ [ev], inr tt).

Definition lift {A} (r : Py.exn + A) : M A := fun tr => (tr, r).

(** [try: m except Exception: h]. *)
Definition try_ {A} (m : M A) (h : Py.exn -> M A) : M A :=
  fun tr =>
    match m tr with
    | (tr', inl e) => h e tr'
    | r => r
    end.

Declare Scope py_scope.
Delimit Scope py_scope with py.
Notation "x <- m ;; k" := (bind m (fun x => k))
  (at level 61, m at next level, right associativity) : py_scope.
Notation "m ;; k" := (bind m (fun _ => k))
  (at level 61, right associativity) : py_scope.

(** ** The function *)

Section CreateVideo.

Variable w : World.
Variable image_folder : string.
Variable output_file : string.
Variable fps : Z.
(** The per-image duration: a float.  An int argument (the default 5 of the
    function, the default 3 of the command line) acts in every expression
    below as the float of the same value. *)
Variable duration : float.
Variable template : string.
Variable background_color : Z * Z * Z.
Variable resolution : Z * Z.
Variable audio_file : option string.

(** Line 16: the extension filter (suffixes carry no dot). *)
Definition is_image_name (f : string) : bool :=
  Py.endswith (Py.lower f) ["png"; "jpg"; "jpeg"; "bmp"; "gif"].

(** Lines 16-17: the matched names, sorted. *)
Definition image_files (names : list string) : list string :=
  Py.sort (filter is_image_name names).

(** Line 23. *)
Definition total_duration (files : list string) : float :=
  (Py.float_of_int (Py.len files) * duration)%float.

(** Line 24. *)
Definition background (files : list string) : MoviePy.Clip :=
  MoviePy.ColorClip resolution background_color (total_duration files).

(** Line 37. *)
Definition ratio (img_size : Z * Z) : Py.exn + float :=
  (r0 <- Py.int_truediv (fst resolution) (fst img_size) ;;
   r1 <- Py.int_truediv (snd resolution) (snd img_size) ;;
   inr (Py.min r0 r1))%exn.

(** Lines 36-38. *)
Definition max_size (img_size : Z * Z) : Py.exn + (Z * Z) :=
  (r <- ratio img_size ;;
   mw <- Py.int (Py.float_of_int (fst img_size) * r)%float ;;
   mh <- Py.int (Py.float_of_int (snd img_size) * r)%float ;;
   inr (mw, mh))%exn.

(** Line 43. *)
Definition zoom_factor (t : float) : Py.exn + float :=
  (q <- Py.truediv t duration ;;
   inr (0.8 + (0.4 * q))%float)%exn.

(** Line 47. *)
Definition display_size (ms : Z * Z) : Py.exn + (Z * Z) :=
  (dw <- Py.int (Py.float_of_int (fst ms) * 1.2)%float ;;
   dh <- Py.int (Py.float_of_int (snd ms) * 1.2)%float ;;
   inr (dw, dh))%exn.

(** Lines 36-50: the fitted size of one decoded image and the resizes of
    its template. *)
Definition animate (img_clip : MoviePy.Clip) : Py.exn + MoviePy.Clip :=
  (img_size <- MoviePy.size img_clip ;;
   ms <- max_size img_size ;;
   if String.eqb template "zoom" then
     (img_clip <- MoviePy.resize_fun (fun t => zoom_factor t) img_clip ;;
      let img_clip := MoviePy.set_position MoviePy.Center img_clip in
      ds <- display_size ms ;;
      MoviePy.resize ds img_clip)
   else
     MoviePy.resize ms img_clip)%exn.

(** Lines 36-52: what the loop does with one decoded image. *)
Definition place (i : nat) (img_clip : MoviePy.Clip) : Py.exn + MoviePy.Clip :=
  (img_clip <- animate img_clip ;;
   inr (MoviePy.set_start (Py.float_of_int (Z.of_nat i) * duration)%float
          (MoviePy.set_duration duration img_clip)))%exn.

(** Lines 27-53: the loop over [enumerate(image_files)], from the pair
    of index [i] on, appending to [clips]. *)
Fixpoint for_images (i : nat) (files : list string) (clips : list MoviePy.Clip)
  : M (list MoviePy.Clip) :=
  match files with
  | [] => ret clips
  | img_file :: rest =>
      let img_path := Py.path_join image_folder img_file in
      match load_image w img_path with
      | None =>
          (emit (ErrorLoadingImage img_path) ;;
           for_images (S i) rest clips)%py
      | Some sz =>
          (img_clip <- lift (place i (MoviePy.ImageClip img_path sz)) ;;
           for_images (S i) rest (clips ++ [img_clip]))%py
      end
  end.

(** Line 57: [audio_file and os.path.exists(audio_file)]. *)
Definition audio_given : bool :=
  match audio_file with
  | Some f => negb (String.eqb f "")
  | None => false
  end.

Definition audio_present : bool :=
  match audio_file with
  | Some f => andb (negb (String.eqb f "")) (path_exists w f)
  | None => false
  end.

(** Lines 60-63: loop or trim the track to the video's duration. *)
Definition reconcile (a : MoviePy.AudioClip) (video_duration : option Q)
  : Py.exn + MoviePy.AudioClip :=
  match MoviePy.a_duration a, video_duration with
  | Some ad, Some vd =>
      if Qlt_le_dec ad vd then MoviePy.loop vd a
      else MoviePy.subclip 0 vd a
  | _, _ => inl Py.TypeError
  end.

(** [video.duration] as the audio step reads it: the exact value of the
    float.  (A video without a duration fails the comparison of line 60;
    a duration that is not finite is not modelled and takes the same
    path.) *)
Definition video_seconds (video : MoviePy.CompositeVideoClip) : option Q :=
  match MoviePy.comp_duration video with
  | Some vd => Py.exact vd
  | None => None
  end.

(** Lines 57-66. *)
Definition add_audio (video : MoviePy.CompositeVideoClip)
  : M MoviePy.CompositeVideoClip :=
  if audio_present then
    try_
      (match audio_file with
       | Some f =>
           match load_audio w f with
           | None => raise Py.OSError
           | Some d =>
               (a <- lift (reconcile (MoviePy.AudioFileClip d) (video_seconds video)) ;;
                ret (MoviePy.set_audio a video))%py
           end
       | None => ret video
       end)
      (fun _ => (emit ErrorAddingAudio ;; ret video)%py)
  else ret video.

(** Lines 68-78. *)
Definition write (n : nat) (video : MoviePy.CompositeVideoClip) : M unit :=
  try_
    (emit (CreatingVideo n) ;;
     emit (WriteVideofile video output_file fps
             (if audio_given then Some "aac" else None)) ;;
     (if write_ok w output_file then ret tt else raise Py.OSError) ;;
     emit (VideoSaved output_file))%py
    (fun _ => emit ErrorCreatingVideo).

(** Lines 6-78. *)
Definition create_video_from_images : M unit :=
  (names <- match listdir w image_folder with
            | Some names => ret names
            | None => raise Py.OSError
            end ;;
   let files := image_files names in
   match files with
   | [] => emit (NoImageFilesFound image_folder)
   | _ :: _ =>
       clips <- for_images 0 files [] ;;
       let video := MoviePy.Composite (background files :: clips) resolution in
       video <- add_audio video ;;
       write (List.length clips) video
   end)%py.

End CreateVideo.

(** ** The fit in the spec's words *)

(** The size the specification describes: the image scaled by the exact
    number min(canvasW/imageW, canvasH/imageH), each side truncated. *)
Definition exact_fit (resolution img_size : Z * Z) : Z * Z :=
  let r := Qmin (inject_Z (fst resolution) / inject_Z (fst img_size))
                (inject_Z (snd resolution) / inject_Z (snd img_size)) in
  (Qfloor (inject_Z (fst img_size) * r), Qfloor (inject_Z (snd img_size) * r)).

(** ** Vocabulary of the statements *)

(** The files of the loop that decode, each with its loop index, its path
    and its decoded size, in loop order. *)
Fixpoint survivors (w : World) (image_folder : string) (i : nat) (files : list string)
  : list (nat * string * (Z * Z)) :=
  match files with
  | [] => []
  | f :: r =>
      match load_image w (Py.path_join image_folder f) with
      | Some sz => (i, Py.path_join image_folder f, sz) :: survivors w image_folder (S i) r
      | None => survivors w image_folder (S i) r
      end
  end.

(** The paths of the files of the loop that fail to decode, in loop order. *)
Fixpoint failures (w : World) (image_folder : string) (files : list string) : list string :=
  match files with
  | [] => []
  | f :: r =>
      match load_image w (Py.path_join image_folder f) with
      | Some _ => failures w image_folder r
      | None => Py.path_join image_folder f :: failures w image_folder r
      end
  end.

(** The paths of the files that fail to decode before the first file
    that decodes, in loop order. *)
Fixpoint leading_failures (w : World) (image_folder : string) (files : list string)
  : list string :=
  match files with
  | [] => []
  | f :: r =>
      match load_image w (Py.path_join image_folder f) with
      | Some _ => []
      | None => Py.path_join image_folder f :: leading_failures w image_folder r
      end
  end.

(** The compositions handed to the encoder during a run. *)
Definition encoded (tr : list event) : list MoviePy.CompositeVideoClip :=
  flat_map (fun ev => match ev with WriteVideofile v _ _ _ => [v] | _ => [] end) tr.

(** The loop body raises nothing on the images that decode: the fit
    returns a size and the resizes accept it (for "zoom": the zoom factor
    at time 0 is defined, and the first frame and the enlarged frame have
    positive sides; see [animate_succeeds_other] and
    [animate_succeeds_zoom]). *)
Definition images_placeable (w : World) (d : float) (template : string)
  (resolution : Z * Z) : Prop :=
  forall p sz, load_image w p = Some sz ->
    exists c, animate d template resolution (MoviePy.ImageClip p sz) = inr c.

(** The loop index of a clip as a float. *)
Definition idx (i : nat) : float := Py.float_of_int (Z.of_nat i).

(** File names in ascending order: each name is at most the next one. *)
Definition ascending (l : list string) : Prop :=
  Sorted (fun a b => String.leb a b = true) l.

(** The time slot of the clip built at loop index [i] from the file at
    path [p], for a per-image duration [d]: the binary64 product and sum. *)
Definition in_slot (d : float) (i : nat) (p : string) (c : MoviePy.Clip) : Prop :=
  MoviePy.shows c = MoviePy.FromFile p /\
  MoviePy.start c = (idx i * d)%float /\
  MoviePy.duration c = Some d /\
  MoviePy.end_ c = Some (idx i * d + d)%float.

(** The clip the loop body builds for one surviving file. *)
Definition placed (d : float) (template : string) (resolution : Z * Z)
  (s : nat * string * (Z * Z)) (c : MoviePy.Clip) : Prop :=
  place d template resolution (fst (fst s))
    (MoviePy.ImageClip (snd (fst s)) (snd s)) = inr c.

(** The suffixes of line 16. *)
Definition image_suffixes : list string := ["png"; "jpg"; "jpeg"; "bmp"; "gif"].

(** ** Concrete environments *)

Fixpoint lookup {A} (k : string) (l : list (string * A)) : option A :=
  match l with
  | [] => None
  | (k', v) :: r => if String.eqb k k' then Some v else lookup k r
  end.

(** A folder listing [names]; [images] gives the size of each path that
    decodes; [audios] lists the audio paths that exist, each with the
    length of its track when it decodes; the encoder succeeds. *)
Definition world_of (names : list string) (images : list (string * (Z * Z)))
  (audios : list (string * option Q)) : World :=
  {| listdir := fun _ => Some names;
     load_image := fun p => lookup p images;
     path_exists := fun p => match lookup p audios with Some _ => true | None => false end;
     load_audio := fun p => match lookup p audios with Some (Some d) => Some d | _ => None end;
     write_ok := fun _ => true |}.

(** The same environment with an encoder that raises. *)
Definition failing_encoder (w : World) : World :=
  {| listdir := listdir w; load_image := load_image w; path_exists := path_exists w;
     load_audio := load_audio w; write_ok := fun _ => false |}.

(** Two matched files; the first in sorted order does not decode. *)
Definition world_first_corrupt : World :=
  world_of ["b.png"; "a.png"; "notes.txt"] [("imgs/b.png", (1920, 1080))] [].

(** One matched file, which does not decode. *)
Definition world_all_corrupt : World :=
  world_of ["a.png"] [] [].

(** One image; no audio file exists. *)
Definition world_one_image : World :=
  world_of ["a.png"] [("imgs/a.png", (1920, 1080))] [].

(** One small square image. *)
Definition world_small_image : World :=
  world_of ["a.png"] [("imgs/a.png", (100, 100))] [].

(** One image; the audio file exists and does not decode. *)
Definition world_bad_audio : World :=
  world_of ["a.png"] [("imgs/a.png", (1920, 1080))] [("song.mp3", None)].

(** Two images; the audio file decodes to a 4 second track. *)
Definition world_short_audio : World :=
  world_of ["a.png"; "b.jpg"] [("imgs/a.png", (1920, 1080)); ("imgs/b.jpg", (100, 100))]
    [("song.mp3", Some 4%Q)].

(** Five matched files, of which [c.png] does not decode. *)
Definition world_five : World :=
  world_of ["e.gif"; "a.png"; "d.bmp"; "b.JPG"; "c.png"]
    [("imgs/a.png", (640, 480)); ("imgs/b.JPG", (100, 100));
     ("imgs/d.bmp", (1920, 1080)); ("imgs/e.gif", (4000, 3000))] [].

(** Seven images of the size of the canvas, all decoding. *)
Definition world_seven : World :=
  world_of ["1.png"; "2.png"; "3.png"; "4.png"; "5.png"; "6.png"; "7.png"]
    [("imgs/1.png", (1920, 1080)); ("imgs/2.png", (1920, 1080));
     ("imgs/3.png", (1920, 1080)); ("imgs/4.png", (1920, 1080));
     ("imgs/5.png", (1920, 1080)); ("imgs/6.png", (1920, 1080));
     ("imgs/7.png", (1920, 1080))] [].


(** One image so tall that its fitted width is 0. *)
Definition world_thin_image : World :=
  world_of ["a.png"] [("imgs/a.png", (1, 5000))] [].

(** One image of a single pixel. *)
Definition world_one_pixel : World :=
  world_of ["a.png"] [("imgs/a.png", (1, 1))] [].

(** One very small image, 11 pixels wide and 6 high. *)
Definition world_tiny_image : World :=
  world_of ["a.png"] [("imgs/a.png", (11, 6))] [].

(** The run of the function in a world with the default canvas, frame rate
    and output file. *)
Definition run (w : World) (d : float) (template : string) (audio_file : option string)
  : list event * (Py.exn + unit) :=
  create_video_from_images w "imgs" "output.mp4" 30 d template (0, 0, 0)
    (1920, 1080) audio_file [].

(** Whether a fallible step returns. *)
Definition succeeds {E A : Type} (r : E + A) : bool :=
  match r with inr _ => true | inl _ => false end.

(** Decides [images_placeable] for a world given by [world_of]: the loop
    body is run on each image of the world. *)
Ltac placeable_images :=
  let p := fresh "p" in
  let sz := fresh "sz" in
  let H := fresh "H" in
  intros p sz H; cbn in H;
  repeat match type of H with
         | (if String.eqb ?a ?b then _ else _) = _ =>
             let E := fresh "E" in
             destruct (String.eqb a b) eqn:E;
             [apply String.eqb_eq in E; subst p; injection H as <-;
              match goal with
              | |- exists c, ?x = inr c =>
                  let Hs := fresh "Hs" in
                  let c' := fresh "c" in
                  assert (Hs : succeeds x = true) by (vm_compute; reflexivity);
                  destruct x as [?|c']; [discriminate Hs | exists c'; reflexivity]
              end|]
         end;
  discriminate H.

(** ** Facts of binary64 arithmetic *)

Section FloatFacts.











End FloatFacts.

(** ** Sorting and filtering the directory listing *)

Lemma insert_perm (x : string) (l : list string) : Permutation (x :: l) (Py.insert x l).
Proof.
  induction l as [|y l IH]; cbn [Py.insert]; [reflexivity|].
  destruct (String.leb x y); [reflexivity|].
  rewrite perm_swap. apply perm_skip. exact IH.
Qed.

Lemma sort_perm (l : list string) : Permutation l (Py.sort l).
Proof.
  induction l as [|x l IH]; cbn [Py.sort]; [reflexivity|].
  rewrite <- insert_perm. apply perm_skip. exact IH.
Qed.

Lemma insert_hd (a x : string) (l : list string) :
  String.leb a x = true ->
  HdRel (fun a b => String.leb a b = true) a l ->
  HdRel (fun a b => String.leb a b = true) a (Py.insert x l).
Proof.
  intros Hax H. destruct l as [|y l]; cbn [Py.insert].
  - constructor. exact Hax.
  - destruct (String.leb x y); constructor; [exact Hax|].
    inversion H; assumption.
Qed.

Lemma insert_ascending (x : string) (l : list string) :
  ascending l -> ascending (Py.insert x l).
Proof.
  unfold ascending. induction l as [|y l IH]; intros H; cbn [Py.insert].
  - repeat constructor.
  - destruct (String.leb x y) eqn:E.
    + constructor; [exact H | constructor; exact E].
    + inversion H as [|? ? Hs Hh]; subst. constructor; [apply IH; exact Hs|].
      apply insert_hd; [|exact Hh].
      destruct (String.leb_total x y) as [T|T]; [congruence | exact T].
Qed.

Lemma sort_ascending (l : list string) : ascending (Py.sort l).
Proof.
  induction l as [|x l IH]; cbn [Py.sort]; [constructor|].
  apply insert_ascending. exact IH.
Qed.

Lemma image_files_ascending (names : list string) : ascending (image_files names).
Proof. apply sort_ascending. Qed.

(** The matched files are exactly the names of the listing that pass the
    extension filter. *)
Lemma image_files_spec (names : list string) (f : string) :
  In f (image_files names) <-> In f names /\ is_image_name f = true.
Proof.
  unfold image_files. rewrite <- filter_In. split; intros H.
  - apply Permutation_in with (2 := H). symmetry. apply sort_perm.
  - apply Permutation_in with (2 := H). apply sort_perm.
Qed.


Lemma image_files_nil (names : list string) :
  image_files names = [] <-> forall f, In f names -> is_image_name f = false.
Proof.
  split.
  - intros E f Hf. destruct (is_image_name f) eqn:M; [|reflexivity].
    assert (I : In f (image_files names)) by (apply image_files_spec; auto).
    rewrite E in I. destruct I.
  - intros H. destruct (image_files names) as [|f l] eqn:E; [reflexivity|].
    assert (I : In f (image_files names)) by (rewrite E; left; reflexivity).
    apply image_files_spec in I. destruct I as [I M].
    rewrite (H f I) in M. discriminate.
Qed.

(** ** The survivors of the loop *)

Section Survivors.

Variable w : World.
Variable image_folder : string.

Lemma survivors_index (files : list string) :
  forall i s, In s (survivors w image_folder i files) ->
    (i <= fst (fst s) < i + List.length files)%nat.
Proof.
  induction files as [|f r IH]; intros i s H; cbn [survivors] in H; [destruct H|].
  cbn [List.length].
  destruct (load_image w (Py.path_join image_folder f)).
  - destruct H as [<- | H]; [cbn; lia|]. apply IH in H. lia.
  - apply IH in H. lia.
Qed.

Lemma survivors_decoded (files : list string) :
  forall i s, In s (survivors w image_folder i files) ->
    load_image w (snd (fst s)) = Some (snd s).
Proof.
  induction files as [|f r IH]; intros i s H; cbn [survivors] in H; [destruct H|].
  destruct (load_image w (Py.path_join image_folder f)) eqn:E.
  - destruct H as [<- | H]; [exact E | eapply IH; exact H].
  - eapply IH; exact H.
Qed.

(** Survivors and failures partition the files. *)
Lemma survivors_failures_length (files : list string) :
  forall i,
    (List.length (survivors w image_folder i files)
     + List.length (failures w image_folder files) = List.length files)%nat.
Proof.
  induction files as [|f r IH]; intros i; cbn [survivors failures List.length]; [reflexivity|].
  destruct (load_image w (Py.path_join image_folder f)); cbn [List.length];
    specialize (IH (S i)); lia.
Qed.

(** The loop index of the k-th survivor is at least k places on. *)
Lemma survivors_nth_index (files : list string) :
  forall i k s, nth_error (survivors w image_folder i files) k = Some s ->
    (i + k <= fst (fst s))%nat.
Proof.
  induction files as [|f r IH]; intros i k s H; cbn [survivors] in H.
  - destruct k; discriminate.
  - destruct (load_image w (Py.path_join image_folder f)).
    + destruct k as [|k]; cbn in H.
      * injection H as <-. cbn. lia.
      * apply IH in H. lia.
    + apply IH in H. lia.
Qed.

(** When every file decodes, the k-th survivor is the k-th file. *)
Lemma survivors_all (files : list string) :
  failures w image_folder files = [] ->
  forall i k s, nth_error (survivors w image_folder i files) k = Some s ->
    fst (fst s) = (i + k)%nat.
Proof.
  induction files as [|f r IH]; intros F i k s H; cbn [survivors failures] in *.
  - destruct k; discriminate.
  - destruct (load_image w (Py.path_join image_folder f)); [|discriminate].
    destruct k as [|k]; cbn in H.
    + injection H as <-. cbn. lia.
    + apply (IH F) in H. lia.
Qed.

End Survivors.

(** The file behind a survivor: its loop index is its place in the list. *)
Lemma survivors_file (w : World) (image_folder : string) (files : list string) :
  forall i s, In s (survivors w image_folder i files) ->
    exists f,
      nth_error files (fst (fst s) - i) = Some f /\
      snd (fst s) = Py.path_join image_folder f.
Proof.
  induction files as [|f r IH]; intros i s H; cbn [survivors] in H; [destruct H|].
  assert (Tail : In s (survivors w image_folder (S i) r) ->
                 exists f0, nth_error (f :: r) (fst (fst s) - i) = Some f0 /\
                            snd (fst s) = Py.path_join image_folder f0).
  { intros Hs. pose proof (survivors_index w image_folder r (S i) s Hs) as B.
    destruct (IH (S i) s Hs) as (f0 & N & P). exists f0. split; [|exact P].
    replace (fst (fst s) - i)%nat with (S (fst (fst s) - S i)) by lia. exact N. }
  destruct (load_image w (Py.path_join image_folder f)).
  - destruct H as [<- | H]; [|exact (Tail H)].
    exists f. cbn [fst snd]. rewrite Nat.sub_diag. split; reflexivity.
  - exact (Tail H).
Qed.

Lemma survivors_nth_mono (w : World) (image_folder : string) (files : list string) :
  forall i k k' s s',
    (k < k')%nat ->
    nth_error (survivors w image_folder i files) k = Some s ->
    nth_error (survivors w image_folder i files) k' = Some s' ->
    (fst (fst s) < fst (fst s'))%nat.
Proof.
  induction files as [|f r IH]; intros i k k' s s' L H H'; cbn [survivors] in H, H'.
  - destruct k; discriminate.
  - destruct (load_image w (Py.path_join image_folder f)).
    + destruct k' as [|k']; [lia|]. destruct k as [|k]; cbn in H, H'.
      * injection H as <-. apply survivors_nth_index in H'. cbn. lia.
      * apply (IH (S i) k k'); [lia | assumption | assumption].
    + apply (IH (S i) k k'); assumption.
Qed.

Lemma Forall2_nth_r {A B} (R : A -> B -> Prop) (l : list A) (l' : list B) :
  Forall2 R l l' ->
  forall k c, nth_error l' k = Some c -> exists s, nth_error l k = Some s /\ R s c.
Proof.
  induction 1 as [|s c0 l l' Hr _ IH]; intros k c H.
  - destruct k; discriminate.
  - destruct k as [|k]; cbn in H |- *.
    + injection H as <-. exists s. split; [reflexivity | exact Hr].
    + apply IH. exact H.
Qed.

Lemma encoded_app (l1 l2 : list event) : encoded (l1 ++ l2) = encoded l1 ++ encoded l2.
Proof. unfold encoded. apply flat_map_app. Qed.

Lemma encoded_load_errors (ps : list string) : encoded (map ErrorLoadingImage ps) = [].
Proof. induction ps as [|p ps IH]; [reflexivity | exact IH]. Qed.

Lemma load_errors_only (ps : list string) (ev : event) :
  In ev (map ErrorLoadingImage ps) -> exists p, ev = ErrorLoadingImage p /\ In p ps.
Proof.
  intros H. apply in_map_iff in H. destruct H as (p & <- & Hp).
  exists p. split; [reflexivity | exact Hp].
Qed.


(** ** One pass of the loop body *)

Lemma set_make_frame_shows (fs : float -> Py.exn + (Z * Z)) (c c' : MoviePy.Clip) :
  MoviePy.set_make_frame fs c = inr c' ->
  MoviePy.shows c' = MoviePy.shows c /\ MoviePy.pos c' = MoviePy.pos c /\
  MoviePy.frame_size c' = fs.
Proof.
  unfold MoviePy.set_make_frame. destruct (fs 0%float); [discriminate|].
  intros H. injection H as <-. repeat split.
Qed.

Lemma resize_shows (ns : Z * Z) (c c' : MoviePy.Clip) :
  MoviePy.resize ns c = inr c' ->
  MoviePy.shows c' = MoviePy.shows c /\ MoviePy.pos c' = MoviePy.pos c.
Proof.
  unfold MoviePy.resize. destruct (MoviePy.size c); [discriminate|].
  intros H. apply set_make_frame_shows in H. tauto.
Qed.

Lemma resize_fun_shows (k : float -> Py.exn + float) (c c' : MoviePy.Clip) :
  MoviePy.resize_fun k c = inr c' -> MoviePy.shows c' = MoviePy.shows c.
Proof.
  unfold MoviePy.resize_fun. destruct (MoviePy.size c); [discriminate|].
  intros H. apply set_make_frame_shows in H. tauto.
Qed.

Section Place.

Variable d : float.
Variable template : string.
Variable resolution : Z * Z.

(** The resizes keep what the clip shows. *)
Lemma animate_shows (c c' : MoviePy.Clip) :
  animate d template resolution c = inr c' -> MoviePy.shows c' = MoviePy.shows c.
Proof.
  unfold animate, Py.bindE.
  destruct (MoviePy.size c); [discriminate|].
  destruct (max_size resolution p) as [|ms]; [discriminate|].
  destruct (String.eqb template "zoom").
  - destruct (MoviePy.resize_fun (fun t => zoom_factor d t) c) as [|c1] eqn:E1;
      [discriminate|].
    destruct (display_size ms) as [|ds]; [discriminate|].
    intros H. apply resize_shows in H. destruct H as [H _].
    rewrite H. cbn [MoviePy.set_position MoviePy.shows].
    apply resize_fun_shows in E1. exact E1.
  - intros H. apply resize_shows in H. tauto.
Qed.

(** Once the resizes succeed the clip fills the slot of its loop index. *)
Lemma place_of_animate (i : nat) (p : string) (sz : Z * Z) (c0 : MoviePy.Clip) :
  animate d template resolution (MoviePy.ImageClip p sz) = inr c0 ->
  exists c,
    place d template resolution i (MoviePy.ImageClip p sz) = inr c /\
    in_slot d i p c /\
    MoviePy.frame_size c = MoviePy.frame_size c0 /\
    MoviePy.pos c = MoviePy.pos c0.
Proof.
  intros E. unfold place, Py.bindE. rewrite E. eexists. split; [reflexivity|].
  pose proof (animate_shows _ _ E) as S.
  unfold in_slot, idx, MoviePy.set_start, MoviePy.set_duration.
  cbn [MoviePy.duration MoviePy.shows MoviePy.start MoviePy.end_
       MoviePy.frame_size MoviePy.pos].
  rewrite S. repeat split.
Qed.

End Place.

(** ** The loop *)

Section Loop.

Variable w : World.
Variable image_folder : string.
Variable d : float.
Variable template : string.
Variable resolution : Z * Z.

(** Whatever happens, the loop prints nothing but decode failures. *)
Lemma for_images_trace (files : list string) :
  forall i clips tr,
  exists ps r,
    for_images w image_folder d template resolution i files clips tr
    = (tr ++ map ErrorLoadingImage ps, r).
Proof.
  induction files as [|f r IH]; intros i clips tr; cbn [for_images].
  - exists [], (inr clips). cbn [map]. rewrite app_nil_r. reflexivity.
  - destruct (load_image w (Py.path_join image_folder f)) as [sz|].
    + unfold bind, lift.
      destruct (place d template resolution i
                  (MoviePy.ImageClip (Py.path_join image_folder f) sz)) as [e|c].
      * exists [], (inl e). cbn [map]. rewrite app_nil_r. reflexivity.
      * apply IH.
    + destruct (IH (S i) clips (tr ++ [ErrorLoadingImage (Py.path_join image_folder f)]))
        as (ps & res & E).
      exists (Py.path_join image_folder f :: ps), res.
      unfold bind, emit. rewrite E. cbn [map]. rewrite <- app_assoc. reflexivity.
Qed.

Hypothesis Hplace : images_placeable w d template resolution.

(** When the body raises nothing, the loop logs each failure and appends
    one clip per survivor, built by the body at the survivor's loop
    index. *)
Lemma for_images_spec (files : list string) :
  forall i clips tr,
  exists cs,
    for_images w image_folder d template resolution i files clips tr
    = (tr ++ map ErrorLoadingImage (failures w image_folder files), inr (clips ++ cs)) /\
    Forall2 (fun s c => placed d template resolution s c /\
                        in_slot d (fst (fst s)) (snd (fst s)) c)
            (survivors w image_folder i files) cs.
Proof.
  induction files as [|f r IH]; intros i clips tr; cbn [for_images survivors failures].
  - exists []. cbn [map]. rewrite !app_nil_r. split; [reflexivity | constructor].
  - destruct (load_image w (Py.path_join image_folder f)) as [sz|] eqn:E.
    + destruct (Hplace _ _ E) as (c0 & E0).
      destruct (place_of_animate d template resolution i _ sz c0 E0)
        as (c & Ec & Sc & _).
      destruct (IH (S i) (clips ++ [c]) tr) as (cs & Er & F).
      exists (c :: cs). unfold bind, lift. rewrite Ec, Er.
      rewrite <- app_assoc. split; [reflexivity|].
      constructor; [split; assumption | exact F].
    + destruct (IH (S i) clips (tr ++ [ErrorLoadingImage (Py.path_join image_folder f)]))
        as (cs & Er & F).
      exists cs. unfold bind, emit. rewrite Er. cbn [map].
      rewrite <- app_assoc. split; [reflexivity | exact F].
Qed.

End Loop.





Section Composition.

Variable w : World.
Variable image_folder : string.
Variable d : float.
Variable background_color : Z * Z * Z.
Variable resolution : Z * Z.
Variable files : list string.
Variable cs : list MoviePy.Clip.
Hypothesis Hcs :
  Forall2 (fun s c => in_slot d (fst (fst s)) (snd (fst s)) c)
          (survivors w image_folder 0 files) cs.


End Composition.

Local Open Scope Q_scope.

(** ** Audio *)

Lemma floor_unique (x : Q) (z : Z) :
  inject_Z z <= x -> x < inject_Z z + 1 -> Qfloor x = z.
Proof.
  intros L U. apply Z.le_antisymm.
  - apply Z.lt_succ_r. unfold Z.succ. rewrite Zlt_Qlt, inject_Z_plus.
    apply Qle_lt_trans with x; [apply Qfloor_le | exact U].
  - rewrite <- (Qfloor_Z z). apply Qfloor_resp_le. exact L.
Qed.

Lemma mod_value (t a : Q) :
  ~ a == 0 -> Py.mod_ t a = inr (t - a * inject_Z (Qfloor (t / a))).
Proof.
  intros H. unfold Py.mod_. destruct (Qeq_bool a 0) eqn:E; [|reflexivity].
  apply Qeq_bool_iff in E. contradiction.
Qed.

(** The remainder lies within one period. *)
Lemma mod_range (t a : Q) :
  0 < a ->
  0 <= t - a * inject_Z (Qfloor (t / a)) /\ t - a * inject_Z (Qfloor (t / a)) < a.
Proof.
  intros Ha.
  assert (Hnz : ~ a == 0) by (intros E; rewrite E in Ha; discriminate).
  pose proof (Qfloor_le (t / a)) as L.
  pose proof (Qlt_floor (t / a)) as U. rewrite inject_Z_plus in U.
  assert (T : a * (t / a) == t) by (apply Qmult_div_r; exact Hnz).
  set (q := inject_Z (Qfloor (t / a))) in *.
  assert (L' : a * q <= a * (t / a)) by (apply Qmult_le_l; assumption).
  assert (U' : a * (t / a) < a * (q + 1)) by (apply Qmult_lt_l; assumption).
  rewrite T in L', U'. rewrite Qmult_plus_distr_r, Qmult_1_r in U'.
  clearbody q. clear L U T. set (aq := a * q) in *. clearbody aq. split; lra.
Qed.

(** One period later the same source time is heard. *)
Lemma mod_periodic (t a : Q) :
  0 < a ->
  (t + a) - a * inject_Z (Qfloor ((t + a) / a)) == t - a * inject_Z (Qfloor (t / a)).
Proof.
  intros Ha.
  assert (Hnz : ~ a == 0) by (intros E; rewrite E in Ha; discriminate).
  assert (S : (t + a) / a == t / a + 1) by (field; exact Hnz).
  assert (F : Qfloor ((t + a) / a) = (Qfloor (t / a) + 1)%Z).
  { apply floor_unique; rewrite S, inject_Z_plus.
    - pose proof (Qfloor_le (t / a)). change (inject_Z 1) with 1. lra.
    - pose proof (Qlt_floor (t / a)) as U. rewrite inject_Z_plus in U.
      change (inject_Z 1) with 1 in *. lra. }
  rewrite F, inject_Z_plus. change (inject_Z 1) with 1. ring.
Qed.

Lemma reconcile_loop (ad vd : Q) :
  0 <= ad -> ad < vd ->
  reconcile (MoviePy.AudioFileClip ad) (Some vd)
  = inr {| MoviePy.a_duration := Some vd;
           MoviePy.a_source_time :=
             fun t => match Py.mod_ t ad with
                      | inl e => inl e
                      | inr t' => inr t'
                      end |}.
Proof.
  intros Ha H. unfold reconcile. cbn [MoviePy.a_duration MoviePy.AudioFileClip].
  destruct (Qlt_le_dec ad vd) as [_|C]; [|exfalso; apply (Qlt_not_le _ _ H C)].
  unfold MoviePy.loop.
  cbn [MoviePy.a_duration MoviePy.a_source_time MoviePy.AudioFileClip].
  destruct (Qeq_bool vd 0) eqn:E; [|reflexivity].
  apply Qeq_bool_iff in E. rewrite E in H.
  exfalso. apply (Qlt_not_le _ _ H Ha).
Qed.

Lemma reconcile_trim (ad vd : Q) :
  0 <= vd -> vd <= ad ->
  reconcile (MoviePy.AudioFileClip ad) (Some vd)
  = inr {| MoviePy.a_duration := Some (vd - 0);
           MoviePy.a_source_time := fun t => inr (t + 0) |}.
Proof.
  intros Hv H. unfold reconcile. cbn [MoviePy.a_duration MoviePy.AudioFileClip].
  destruct (Qlt_le_dec ad vd) as [C|_]; [exfalso; apply (Qlt_not_le _ _ C H)|].
  unfold MoviePy.subclip.
  cbn [MoviePy.a_duration MoviePy.a_source_time MoviePy.AudioFileClip].
  destruct (Qlt_le_dec ad 0) as [C|_];
    [exfalso; apply (Qlt_not_le _ _ C); apply Qle_trans with vd; assumption|].
  destruct (Qlt_le_dec vd 0) as [C|_]; [exfalso; apply (Qlt_not_le _ _ C Hv)|].
  reflexivity.
Qed.

(** C7: a decoded track of length ad > 0 against a video of length
    vd >= 0.  The reconciled track lasts exactly vd.  When ad < vd it is
    looped: at time t the source is heard at t mod ad, which lies in
    [0, ad) and repeats with period ad, so the last repetition is cut where
    the video ends.  When ad >= vd it is trimmed: at time t the source is
    heard at t, for t in [0, vd). *)
Theorem audio_looped_or_trimmed_to_video (ad vd : Q) :
  0 < ad -> 0 <= vd ->
  exists a m,
    reconcile (MoviePy.AudioFileClip ad) (Some vd) = inr a /\
    MoviePy.a_duration a = Some m /\ m == vd /\
    (ad < vd ->
       forall t, exists s s',
         MoviePy.a_source_time a t = inr s /\
         0 <= s /\ s < ad /\
         s == t - ad * inject_Z (Qfloor (t / ad)) /\
         MoviePy.a_source_time a (t + ad) = inr s' /\ s' == s) /\
    (vd <= ad ->
       forall t, exists s, MoviePy.a_source_time a t = inr s /\ s == t).
Proof.
  intros Ha Hv.
  assert (Hnz : ~ ad == 0) by (intros E; rewrite E in Ha; discriminate).
  destruct (Qlt_le_dec ad vd) as [C|C].
  - eexists _, _. split; [apply reconcile_loop; [apply Qlt_le_weak; exact Ha | exact C]|].
    cbn [MoviePy.a_duration MoviePy.a_source_time].
    split; [reflexivity|]. split; [reflexivity|]. split.
    + intros _ t. rewrite !mod_value by exact Hnz. eexists _, _.
      destruct (mod_range t ad Ha) as [L U].
      split; [reflexivity|]. split; [exact L|]. split; [exact U|].
      split; [reflexivity|]. split; [reflexivity|].
      apply mod_periodic. exact Ha.
    + intros C'. exfalso. apply (Qlt_not_le _ _ C C').
  - eexists _, _. split; [apply reconcile_trim; assumption|].
    cbn [MoviePy.a_duration MoviePy.a_source_time].
    split; [reflexivity|]. split; [ring|]. split.
    + intros C'. exfalso. apply (Qlt_not_le _ _ C' C).
    + intros _ t. eexists. split; [reflexivity | ring].
Qed.

Lemma audio_looped_or_trimmed_to_video_witness :
  exists a m,
    reconcile (MoviePy.AudioFileClip 4) (Some 10) = inr a /\
    MoviePy.a_duration a = Some m /\ m == 10 /\
    (4 < 10 ->
       forall t, exists s s',
         MoviePy.a_source_time a t = inr s /\
         0 <= s /\ s < 4 /\
         s == t - 4 * inject_Z (Qfloor (t / 4)) /\
         MoviePy.a_source_time a (t + 4) = inr s' /\ s' == s) /\
    (10 <= 4 ->
       forall t, exists s, MoviePy.a_source_time a t = inr s /\ s == t).
Proof.
  apply (audio_looped_or_trimmed_to_video 4 10); [reflexivity | discriminate].
Defined.


Local Close Scope Q_scope.

(** ** The audio step and the encoder step *)

Section Steps.

Variable w : World.
Variable output_file : string.
Variable fps : Z.

Lemma add_audio_absent (audio_file : option string) (video : MoviePy.CompositeVideoClip) (tr : list event) :
  audio_present w audio_file = false ->
  add_audio w audio_file video tr = (tr, inr video).
Proof. intros H. unfold add_audio. rewrite H. reflexivity. Qed.

Lemma add_audio_undecodable (audio_file : option string) (f : string) (video : MoviePy.CompositeVideoClip)
  (tr : list event) :
  audio_file = Some f -> audio_present w audio_file = true ->
  load_audio w f = None ->
  add_audio w audio_file video tr = (tr ++ [ErrorAddingAudio], inr video).
Proof.
  intros Hf H L. unfold add_audio. rewrite H. subst audio_file.
  unfold try_, raise, bind, emit, ret. rewrite L. reflexivity.
Qed.

Lemma add_audio_decoded (audio_file : option string) (f : string) (ad : Q) (a : MoviePy.AudioClip)
  (video : MoviePy.CompositeVideoClip) (tr : list event) :
  audio_file = Some f -> audio_present w audio_file = true ->
  load_audio w f = Some ad ->
  reconcile (MoviePy.AudioFileClip ad) (video_seconds video) = inr a ->
  add_audio w audio_file video tr = (tr, inr (MoviePy.set_audio a video)).
Proof.
  intros Hf H L R. unfold add_audio. rewrite H. subst audio_file.
  unfold try_, raise, bind, emit, ret, lift. rewrite L, R. reflexivity.
Qed.

(** The audio step raises nothing; it leaves the layers, the size and the
    duration of the composition as they are; when it logs, the composition
    is passed on unchanged. *)
Lemma add_audio_total (audio_file : option string) (video : MoviePy.CompositeVideoClip) (tr : list event) :
  exists log video',
    add_audio w audio_file video tr = (tr ++ log, inr video') /\
    MoviePy.clips video' = MoviePy.clips video /\
    MoviePy.comp_size video' = MoviePy.comp_size video /\
    MoviePy.comp_duration video' = MoviePy.comp_duration video /\
    ((log = [] /\ (audio_present w audio_file = false -> video' = video)) \/
     (log = [ErrorAddingAudio] /\ video' = video /\ audio_present w audio_file = true)).
Proof.
  destruct (audio_present w audio_file) eqn:P.
  - destruct audio_file as [f|]; [|discriminate P].
    destruct (load_audio w f) as [ad|] eqn:L.
    + destruct (reconcile (MoviePy.AudioFileClip ad) (video_seconds video))
        as [e|a] eqn:R.
      * exists [ErrorAddingAudio], video.
        split; [|repeat split; right; repeat split].
        unfold add_audio. rewrite P.
        unfold try_, raise, bind, emit, ret, lift. rewrite L, R. reflexivity.
      * exists [], (MoviePy.set_audio a video). rewrite app_nil_r.
        split; [eapply add_audio_decoded; eauto|].
        repeat split; try reflexivity. left. split; [reflexivity | discriminate].
    + exists [ErrorAddingAudio], video.
      split; [eapply add_audio_undecodable; eauto | repeat split; right; repeat split].
  - exists [], video. rewrite app_nil_r.
    split; [apply add_audio_absent; exact P | repeat split; left; repeat split].
Qed.

(** The encoder step raises nothing and invokes the encoder once. *)
Lemma write_spec (audio_file : option string) (n : nat) (video : MoviePy.CompositeVideoClip) (tr : list event) :
  write w output_file fps audio_file n video tr
  = (tr ++ [CreatingVideo n;
            WriteVideofile video output_file fps
              (if audio_given audio_file then Some "aac" else None);
            if write_ok w output_file then VideoSaved output_file
            else ErrorCreatingVideo],
     inr tt).
Proof.
  unfold write, try_, bind, emit, ret, raise.
  destruct (write_ok w output_file); rewrite <- !app_assoc; reflexivity.
Qed.

End Steps.

(** ** The whole run *)

Section Run.

Variable w : World.
Variable image_folder : string.
Variable output_file : string.
Variable fps : Z.
Variable d : float.
Variable template : string.
Variable background_color : Z * Z * Z.
Variable resolution : Z * Z.
Variable audio_file : option string.
Variable names : list string.

Hypothesis Hlist : listdir w image_folder = Some names.

(** No matched file: one message, nothing else. *)
Lemma run_no_images :
  image_files names = [] ->
  create_video_from_images w image_folder output_file fps d template
    background_color resolution audio_file []
  = ([NoImageFilesFound image_folder], inr tt).
Proof.
  intros E. unfold create_video_from_images, bind, ret. rewrite Hlist, E. reflexivity.
Qed.

Hypothesis Hplace : images_placeable w d template resolution.

(** Some matched file: the run returns after one encoder call on the
    background below one clip per survivor. *)
Lemma run_shape :
  image_files names <> [] ->
  exists cs log video,
    Forall2 (fun s c => placed d template resolution s c /\
                        in_slot d (fst (fst s)) (snd (fst s)) c)
            (survivors w image_folder 0 (image_files names)) cs /\
    add_audio w audio_file
      (MoviePy.Composite
         (background d background_color resolution (image_files names) :: cs) resolution)
      (map ErrorLoadingImage (failures w image_folder (image_files names)))
    = (map ErrorLoadingImage (failures w image_folder (image_files names)) ++ log,
       inr video) /\
    create_video_from_images w image_folder output_file fps d template
      background_color resolution audio_file []
    = (map ErrorLoadingImage (failures w image_folder (image_files names)) ++ log ++
       [CreatingVideo (List.length cs);
        WriteVideofile video output_file fps
          (if audio_given audio_file then Some "aac" else None);
        if write_ok w output_file then VideoSaved output_file else ErrorCreatingVideo],
       inr tt).
Proof.
  intros Hne.
  destruct (for_images_spec w image_folder d template resolution Hplace
              (image_files names) 0%nat [] []) as (cs & Ef & F).
  cbn [app] in Ef.
  destruct (add_audio_total w audio_file
              (MoviePy.Composite
                 (background d background_color resolution (image_files names) :: cs)
                 resolution)
              (map ErrorLoadingImage (failures w image_folder (image_files names))))
    as (log & video & Ea & _).
  exists cs, log, video. split; [exact F|]. split; [exact Ea|].
  unfold create_video_from_images. unfold bind at 1. unfold ret. rewrite Hlist.
  destruct (image_files names) as [|f0 fs] eqn:En; [contradiction|].
  unfold bind. rewrite Ef, Ea, write_spec. rewrite <- app_assoc. reflexivity.
Qed.

End Run.

(** ** What reaches the encoder *)

Section Timeline.

Variable w : World.
Variable image_folder : string.
Variable output_file : string.
Variable fps : Z.
Variable d : float.
Variable template : string.
Variable background_color : Z * Z * Z.
Variable resolution : Z * Z.
Variable audio_file : option string.
Variable names : list string.

Hypothesis Hlist : listdir w image_folder = Some names.
Hypothesis Hplace : images_placeable w d template resolution.
Hypothesis Hne : image_files names <> [].

(** The run returns; its trace holds the decode failures, at most one
    audio message, and one encoder call on the timeline. *)
Lemma run_timeline :
  exists cs log video,
    create_video_from_images w image_folder output_file fps d template
      background_color resolution audio_file []
    = (map ErrorLoadingImage (failures w image_folder (image_files names)) ++ log ++
       [CreatingVideo (List.length cs);
        WriteVideofile video output_file fps
          (if audio_given audio_file then Some "aac" else None);
        if write_ok w output_file then VideoSaved output_file else ErrorCreatingVideo],
       inr tt) /\
    encoded (map ErrorLoadingImage (failures w image_folder (image_files names)) ++ log ++
       [CreatingVideo (List.length cs);
        WriteVideofile video output_file fps
          (if audio_given audio_file then Some "aac" else None);
        if write_ok w output_file then VideoSaved output_file else ErrorCreatingVideo])
    = [video] /\
    Forall2 (fun s c => placed d template resolution s c /\
                        in_slot d (fst (fst s)) (snd (fst s)) c)
            (survivors w image_folder 0 (image_files names)) cs /\
    MoviePy.clips video
    = background d background_color resolution (image_files names) :: cs /\
    MoviePy.comp_size video = resolution /\
    MoviePy.comp_duration video
    = MoviePy.comp_duration
        (MoviePy.Composite
           (background d background_color resolution (image_files names) :: cs)
           resolution) /\
    add_audio w audio_file
      (MoviePy.Composite
         (background d background_color resolution (image_files names) :: cs) resolution)
      [] = (log, inr video) /\
    (log = [] \/ log = [ErrorAddingAudio]).
Proof.
  destruct (run_shape w image_folder output_file fps d template background_color
              resolution audio_file names Hlist Hplace Hne)
    as (cs & log & video & F & Ea & Er).
  destruct (add_audio_total w audio_file
              (MoviePy.Composite
                 (background d background_color resolution (image_files names) :: cs)
                 resolution)
              (map ErrorLoadingImage (failures w image_folder (image_files names))))
    as (log' & video' & Ea' & Hc & Hs & Hdur & Hlog).
  rewrite Ea in Ea'. injection Ea' as El Ev. apply app_inv_head in El.
  subst log' video'.
  exists cs, log, video.
  split; [exact Er|].
  split.
  { rewrite !encoded_app, encoded_load_errors.
    destruct Hlog as [[-> _] | [-> _]];
      destruct (write_ok w output_file); reflexivity. }
  split; [exact F|]. split; [exact Hc|]. split; [exact Hs|]. split; [exact Hdur|].
  split.
  - clear Er. revert Ea. unfold add_audio.
    destruct (audio_present w audio_file).
    + unfold try_, bind, lift, ret, raise, emit.
      destruct audio_file as [f|].
      * destruct (load_audio w f) as [ad|].
        -- destruct (reconcile _ _); intros Ea; injection Ea as El Ev;
             rewrite <- Ev; f_equal;
             [ apply app_inv_head with (l := map ErrorLoadingImage
                 (failures w image_folder (image_files names)));
               rewrite <- El; reflexivity
             | apply app_inv_head with (l := map ErrorLoadingImage
                 (failures w image_folder (image_files names)));
               rewrite <- El, app_nil_r; reflexivity ].
        -- intros Ea; injection Ea as El Ev. rewrite <- Ev. f_equal.
           apply app_inv_head with (l := map ErrorLoadingImage
                 (failures w image_folder (image_files names))).
           rewrite <- El. reflexivity.
      * intros Ea; injection Ea as El Ev. rewrite <- Ev. f_equal.
        apply app_inv_head with (l := map ErrorLoadingImage
                 (failures w image_folder (image_files names))).
        rewrite <- El, app_nil_r. reflexivity.
    + unfold ret. intros Ea; injection Ea as El Ev. rewrite <- Ev. f_equal.
      apply app_inv_head with (l := map ErrorLoadingImage
                 (failures w image_folder (image_files names))).
      rewrite <- El, app_nil_r. reflexivity.
  - destruct Hlog as [[-> _] | [-> _]]; [left | right]; reflexivity.
Qed.

End Timeline.

(** ** Time slots *)

Lemma Forall2_nth_l {A B} (R : A -> B -> Prop) (l : list A) (l' : list B) :
  Forall2 R l l' ->
  forall k s, nth_error l k = Some s -> exists c, nth_error l' k = Some c /\ R s c.
Proof.
  induction 1 as [|s0 c l l' Hr _ IH]; intros k s H.
  - destruct k; discriminate.
  - destruct k as [|k]; cbn in H |- *.
    + injection H as <-. exists c. split; [reflexivity | exact Hr].
    + apply IH. exact H.
Qed.

(** Every file that decodes is among the survivors, at its place. *)
Lemma survivors_complete (w : World) (image_folder : string) (files : list string) :
  forall i0 i f sz,
    nth_error files i = Some f ->
    load_image w (Py.path_join image_folder f) = Some sz ->
    In ((i0 + i)%nat, Py.path_join image_folder f, sz) (survivors w image_folder i0 files).
Proof.
  induction files as [|f0 r IH]; intros i0 i f sz Hf Hl; [destruct i; discriminate|].
  cbn [survivors]. destruct i as [|i]; cbn in Hf.
  - injection Hf as ->. rewrite Hl. left. rewrite Nat.add_0_r. reflexivity.
  - pose proof (IH (S i0) i f sz Hf Hl) as I.
    replace (S i0 + i)%nat with (i0 + S i)%nat in I by lia.
    destruct (load_image w (Py.path_join image_folder f0)); [right|]; exact I.
Qed.

Section Slots.

Variable w : World.
Variable image_folder : string.
Variable d : float.
Variable files : list string.
Variable cs : list MoviePy.Clip.
Hypothesis Hcs :
  Forall2 (fun s c => in_slot d (fst (fst s)) (snd (fst s)) c)
          (survivors w image_folder 0 files) cs.

(** Each clip sits in the slot of its file's place in the list. *)
Lemma clip_slot (k : nat) (c : MoviePy.Clip) :
  nth_error cs k = Some c ->
  exists i f sz,
    (k <= i)%nat /\
    nth_error files i = Some f /\
    load_image w (Py.path_join image_folder f) = Some sz /\
    in_slot d i (Py.path_join image_folder f) c.
Proof.
  intros H. destruct (Forall2_nth_r _ _ _ Hcs k c H) as (s & Hs & Sl).
  pose proof (nth_error_In _ _ Hs) as I.
  destruct (survivors_file w image_folder files 0 s I) as (f & Nf & Pf).
  pose proof (survivors_decoded w image_folder files 0 s I) as D.
  pose proof (survivors_nth_index w image_folder files 0 k s Hs) as B.
  rewrite Nat.sub_0_r in Nf. rewrite Pf in D, Sl.
  exists (fst (fst s)), f, (snd s).
  split; [lia|]. split; [exact Nf|]. split; [exact D | exact Sl].
Qed.

(** Each file that decodes has its clip. *)
Lemma slot_clip (i : nat) (f : string) (sz : Z * Z) :
  nth_error files i = Some f ->
  load_image w (Py.path_join image_folder f) = Some sz ->
  exists k c,
    (k <= i)%nat /\
    nth_error cs k = Some c /\ in_slot d i (Py.path_join image_folder f) c.
Proof.
  intros Hf Hl.
  pose proof (survivors_complete w image_folder files 0 i f sz Hf Hl) as I.
  apply In_nth_error in I. destruct I as [k Hk].
  destruct (Forall2_nth_l _ _ _ Hcs k _ Hk) as (c & Hc & Sl).
  pose proof (survivors_nth_index w image_folder files 0 k _ Hk) as B.
  cbn [fst snd Nat.add] in B, Sl.
  exists k, c. split; [exact B|]. split; [exact Hc | exact Sl].
Qed.

Lemma clips_count :
  List.length cs
  = (List.length files - List.length (failures w image_folder files))%nat.
Proof.
  rewrite <- (Forall2_length Hcs).
  pose proof (survivors_failures_length w image_folder files 0). lia.
Qed.

Hypothesis Hall : failures w image_folder files = [].

(** When every file decodes the k-th clip sits in the k-th slot. *)
Lemma clip_slot_all (k : nat) (c : MoviePy.Clip) :
  nth_error cs k = Some c ->
  MoviePy.start c = (idx k * d)%float /\ MoviePy.duration c = Some d /\
  MoviePy.end_ c = Some (idx k * d + d)%float.
Proof.
  intros H. destruct (Forall2_nth_r _ _ _ Hcs k c H) as (s & Hs & (_ & Hst & Hdu & He)).
  pose proof (survivors_all w image_folder files Hall 0 k s Hs) as E.
  cbn [Nat.add] in E. rewrite E in Hst, He. repeat split; assumption.
Qed.

Lemma clips_count_all : List.length cs = List.length files.
Proof. rewrite clips_count, Hall. cbn. lia. Qed.

End Slots.

Lemma slots_of_placed (w : World) (image_folder : string) (d : float) (template : string)
  (resolution : Z * Z) (files : list string) (cs : list MoviePy.Clip) :
  Forall2 (fun s c => placed d template resolution s c /\
                      in_slot d (fst (fst s)) (snd (fst s)) c)
          (survivors w image_folder 0 files) cs ->
  Forall2 (fun s c => in_slot d (fst (fst s)) (snd (fst s)) c)
          (survivors w image_folder 0 files) cs.
Proof. apply Forall2_impl. intros s c [_ H]. exact H. Qed.

(** C1, as stated, fails.  (a) A matched file that does not decode keeps
    its slot: the folder holds a.png (corrupt) and b.png, d = 5; one asset
    survives (n = 1), but its clip starts at 5, not at 0*5, and the
    composition lasts 10, not 1*5.  (b) In binary64 the clips of seven
    decoding files with d = 0.3 overlap: the sixth clip ends at
    5*0.3 + 0.3 = 1.8, after the seventh has started at
    6*0.3 = 1.7999999999999998. *)
Lemma timeline_skipped_slot_counterexample :
  (survivors world_first_corrupt "imgs" 0 (image_files ["b.png"; "a.png"; "notes.txt"])
   = [(1%nat, "imgs/b.png", (1920, 1080))] /\
   match encoded (fst (run world_first_corrupt 5 "slide_in" None)) with
   | [video] =>
       map MoviePy.start (tl (MoviePy.clips video)) = [5%float] /\
       MoviePy.comp_duration video = Some 10%float
   | _ => False
   end /\
   (5 =? idx 0 * 5)%float = false /\ (10 =? idx 1 * 5)%float = false) /\
  match encoded (fst (run world_seven 0.3 "slide_in" None)) with
  | [video] =>
      match nth_error (MoviePy.clips video) 6, nth_error (MoviePy.clips video) 7 with
      | Some c5, Some c6 =>
          MoviePy.end_ c5 = Some 1.8%float /\
          MoviePy.start c6 = 1.7999999999999998%float /\
          (MoviePy.start c6 <? 1.8)%float = true
      | _, _ => False
      end
  | _ => False
  end.
Proof.
  split.
  - split; [reflexivity|]. split; [vm_compute; split; reflexivity|].
    split; reflexivity.
  - vm_compute. repeat split.
Qed.

(** C1, amended: the clip built from the file at place i of the sorted
    list of matched files starts at the binary64 product i*d, lasts d and
    ends at the binary64 sum i*d + d, whether or not earlier files
    decoded; every matched file that decodes has such a clip, in the order
    of the files; the background lasts (number of matched files)*d.  When
    every matched file decodes the k-th clip starts at k*d.  (That the end
    of a clip meets the start of the next is not promised: the two are
    rounded separately.) *)
Theorem timeline_slots_follow_file_places
  (w : World) (image_folder output_file : string) (fps : Z) (d : float)
  (template : string) (background_color : Z * Z * Z) (resolution : Z * Z)
  (audio_file : option string) (names : list string) :
  listdir w image_folder = Some names ->
  images_placeable w d template resolution ->
  image_files names <> [] ->
  exists tr video bg cs,
    create_video_from_images w image_folder output_file fps d template
      background_color resolution audio_file [] = (tr, inr tt) /\
    encoded tr = [video] /\
    MoviePy.clips video = bg :: cs /\
    MoviePy.start bg = 0%float /\
    MoviePy.duration bg
    = Some (Py.float_of_int (Py.len (image_files names)) * d)%float /\
    ascending (image_files names) /\
    (forall k c, nth_error cs k = Some c ->
       exists i f sz,
         (k <= i)%nat /\
         nth_error (image_files names) i = Some f /\
         load_image w (Py.path_join image_folder f) = Some sz /\
         MoviePy.shows c = MoviePy.FromFile (Py.path_join image_folder f) /\
         MoviePy.start c = (idx i * d)%float /\
         MoviePy.duration c = Some d /\
         MoviePy.end_ c = Some (idx i * d + d)%float) /\
    (forall i f sz,
       nth_error (image_files names) i = Some f ->
       load_image w (Py.path_join image_folder f) = Some sz ->
       exists k c,
         (k <= i)%nat /\
         nth_error cs k = Some c /\
         MoviePy.shows c = MoviePy.FromFile (Py.path_join image_folder f) /\
         MoviePy.start c = (idx i * d)%float /\
         MoviePy.duration c = Some d /\
         MoviePy.end_ c = Some (idx i * d + d)%float) /\
    (forall k k' c c',
       (k < k')%nat -> nth_error cs k = Some c -> nth_error cs k' = Some c' ->
       exists i i', (i < i')%nat /\
         MoviePy.start c = (idx i * d)%float /\
         MoviePy.start c' = (idx i' * d)%float) /\
    (failures w image_folder (image_files names) = [] ->
       List.length cs = List.length (image_files names) /\
       forall k c, nth_error cs k = Some c ->
         MoviePy.start c = (idx k * d)%float /\ MoviePy.duration c = Some d /\
         MoviePy.end_ c = Some (idx k * d + d)%float).
Proof.
  intros Hlist Hplace Hne.
  destruct (run_timeline w image_folder output_file fps d template background_color
              resolution audio_file names Hlist Hplace Hne)
    as (cs & log & video & Er & Ee & F & Hc & _).
  apply slots_of_placed in F.
  eexists _, video, _, cs.
  split; [exact Er|]. split; [exact Ee|]. split; [exact Hc|].
  split; [reflexivity|]. split; [reflexivity|].
  split; [apply image_files_ascending|].
  split.
  { intros k c H.
    destruct (clip_slot w image_folder d _ cs F k c H)
      as (i & f & sz & Hk & Nf & D & (S1 & S2 & S3 & S4)).
    exists i, f, sz. repeat split; assumption. }
  split.
  { intros i f sz Hf Hl.
    destruct (slot_clip w image_folder d _ cs F i f sz Hf Hl)
      as (k & c & Hki & Hk & (S1 & S2 & S3 & S4)).
    exists k, c. repeat split; assumption. }
  split.
  { intros k k' c c' L Hk Hk'.
    destruct (Forall2_nth_r _ _ _ F k c Hk) as (s & Hs & (_ & St & _)).
    destruct (Forall2_nth_r _ _ _ F k' c' Hk') as (s' & Hs' & (_ & St' & _)).
    exists (fst (fst s)), (fst (fst s')).
    split; [apply (survivors_nth_mono w image_folder _ 0 k k' s s' L Hs Hs')|].
    split; assumption. }
  intros Hall.
  split; [apply (clips_count_all w image_folder d _ cs F Hall)|].
  intros k c H. apply (clip_slot_all w image_folder d _ cs F Hall k c H).
Qed.

Lemma timeline_slots_follow_file_places_witness :
  exists tr video bg cs,
    create_video_from_images world_five "imgs" "output.mp4" 30 5 "zoom"
      (0, 0, 0) (1920, 1080) None [] = (tr, inr tt) /\
    encoded tr = [video] /\
    MoviePy.clips video = bg :: cs /\
    MoviePy.start bg = 0%float /\
    MoviePy.duration bg
    = Some (Py.float_of_int
              (Py.len (image_files ["e.gif"; "a.png"; "d.bmp"; "b.JPG"; "c.png"])) * 5)%float /\
    ascending (image_files ["e.gif"; "a.png"; "d.bmp"; "b.JPG"; "c.png"]) /\
    (forall k c, nth_error cs k = Some c ->
       exists i f sz,
         (k <= i)%nat /\
         nth_error (image_files ["e.gif"; "a.png"; "d.bmp"; "b.JPG"; "c.png"]) i = Some f /\
         load_image world_five (Py.path_join "imgs" f) = Some sz /\
         MoviePy.shows c = MoviePy.FromFile (Py.path_join "imgs" f) /\
         MoviePy.start c = (idx i * 5)%float /\
         MoviePy.duration c = Some 5%float /\
         MoviePy.end_ c = Some (idx i * 5 + 5)%float) /\
    (forall i f sz,
       nth_error (image_files ["e.gif"; "a.png"; "d.bmp"; "b.JPG"; "c.png"]) i = Some f ->
       load_image world_five (Py.path_join "imgs" f) = Some sz ->
       exists k c,
         (k <= i)%nat /\
         nth_error cs k = Some c /\
         MoviePy.shows c = MoviePy.FromFile (Py.path_join "imgs" f) /\
         MoviePy.start c = (idx i * 5)%float /\
         MoviePy.duration c = Some 5%float /\
         MoviePy.end_ c = Some (idx i * 5 + 5)%float) /\
    (forall k k' c c',
       (k < k')%nat -> nth_error cs k = Some c -> nth_error cs k' = Some c' ->
       exists i i', (i < i')%nat /\
         MoviePy.start c = (idx i * 5)%float /\
         MoviePy.start c' = (idx i' * 5)%float) /\
    (failures world_five "imgs"
       (image_files ["e.gif"; "a.png"; "d.bmp"; "b.JPG"; "c.png"]) = [] ->
       List.length cs
       = List.length (image_files ["e.gif"; "a.png"; "d.bmp"; "b.JPG"; "c.png"]) /\
       forall k c, nth_error cs k = Some c ->
         MoviePy.start c = (idx k * 5)%float /\ MoviePy.duration c = Some 5%float /\
         MoviePy.end_ c = Some (idx k * 5 + 5)%float).
Proof.
  apply (timeline_slots_follow_file_places world_five "imgs" "output.mp4" 30 5 "zoom"
           (0, 0, 0) (1920, 1080) None ["e.gif"; "a.png"; "d.bmp"; "b.JPG"; "c.png"]).
  - reflexivity.
  - placeable_images.
  - vm_compute. discriminate.
Defined.

(** ** The zoom factor (line 43) *)





(** ** The fitted size (lines 36-38) *)

(** C4 on the code: an 11x6 image on a 1920x1080 canvas.  The exact scale
    is min(1920/11, 1080/6) = 1920/11, so the image scaled and truncated
    is 1920x1047, the largest size that fits.  The code computes the
    quotient 1920/11 in binary64 (174.54545454545453), multiplies it by 11
    to a float just below 1920 and truncates: it returns 1919x1047, and
    that is the size of the clip it builds.  In the same way a 176x99
    image, which has the aspect ratio of the canvas, is fitted to
    1919x1080 and not to the canvas. *)
Theorem fit_truncates_below_the_exact_fit_at_input :
  ratio (1920, 1080) (11, 6) = inr 174.54545454545453%float /\
  (Py.float_of_int 11 * 174.54545454545453 <? 1920)%float = true /\
  max_size (1920, 1080) (11, 6) = inr (1919, 1047) /\
  exact_fit (1920, 1080) (11, 6) = (1920, 1047) /\
  match encoded (fst (run world_tiny_image 5 "slide_in" None)) with
  | [video] =>
      map (fun c => MoviePy.frame_size c 0%float) (tl (MoviePy.clips video))
      = [inr (1919, 1047)]
  | _ => False
  end /\
  max_size (1920, 1080) (176, 99) = inr (1919, 1080) /\
  exact_fit (1920, 1080) (176, 99) = (1920, 1080).
Proof.
  split; [vm_compute; reflexivity|].
  split; [vm_compute; reflexivity|].
  split; [vm_compute; reflexivity|].
  split; [vm_compute; reflexivity|].
  split; [vm_compute; reflexivity|].
  split; vm_compute; reflexivity.
Qed.

(** ** Reading the trace *)

Lemma not_in_tail (ev : event) (n : nat) (video : MoviePy.CompositeVideoClip)
  (output_file : string) (fps : Z) (codec : option string) (ok : bool) :
  (forall k, ev <> CreatingVideo k) ->
  (forall v o f c, ev <> WriteVideofile v o f c) ->
  (forall o, ev <> VideoSaved o) ->
  ev <> ErrorCreatingVideo ->
  ~ In ev [CreatingVideo n; WriteVideofile video output_file fps codec;
           if ok then VideoSaved output_file else ErrorCreatingVideo].
Proof.
  intros H1 H2 H3 H4 [E | [E | [E | []]]].
  - exact (H1 _ (eq_sym E)).
  - exact (H2 _ _ _ _ (eq_sym E)).
  - destruct ok; [exact (H3 _ (eq_sym E)) | exact (H4 (eq_sym E))].
Qed.


Lemma in_run_trace (ev : event) (ps : list string) (log : list event) (n : nat)
  (video : MoviePy.CompositeVideoClip) (output_file : string) (fps : Z)
  (codec : option string) (last : event) :
  log = [] \/ log = [ErrorAddingAudio] ->
  (forall p, ev <> ErrorLoadingImage p) ->
  ev <> ErrorAddingAudio ->
  (forall k, ev <> CreatingVideo k) ->
  (forall v o f c, ev <> WriteVideofile v o f c) ->
  In ev (map ErrorLoadingImage ps ++ log ++
         [CreatingVideo n; WriteVideofile video output_file fps codec; last])
  <-> ev = last.
Proof.
  intros Hlog H1 H2 H3 H4. split.
  - intros I. apply in_app_or in I. destruct I as [I | I].
    + apply load_errors_only in I. destruct I as (p & E & _). destruct (H1 _ E).
    + apply in_app_or in I. destruct I as [I | I].
      * destruct Hlog as [-> | ->]; [destruct I|].
        destruct I as [E | []]. destruct (H2 (eq_sym E)).
      * destruct I as [E | [E | [E | []]]].
        -- destruct (H3 _ (eq_sym E)).
        -- destruct (H4 _ _ _ _ (eq_sym E)).
        -- exact (eq_sym E).
  - intros ->. apply in_or_app. right. apply in_or_app. right.
    right. right. left. reflexivity.
Qed.


(** ** Every run *)

(** A run over a non-empty list of matched files either raises out of the
    loop, having printed decode failures only, or returns after the audio
    step and one encoder call. *)
Lemma run_cases
  (w : World) (image_folder output_file : string) (fps : Z) (d : float)
  (template : string) (background_color : Z * Z * Z) (resolution : Z * Z)
  (audio_file : option string) (names : list string) :
  listdir w image_folder = Some names ->
  image_files names <> [] ->
  exists ps,
    (exists e,
       create_video_from_images w image_folder output_file fps d template
         background_color resolution audio_file []
       = (map ErrorLoadingImage ps, inl e)) \/
    (exists log n video last,
       create_video_from_images w image_folder output_file fps d template
         background_color resolution audio_file []
       = (map ErrorLoadingImage ps ++ log ++
          [CreatingVideo n;
           WriteVideofile video output_file fps
             (if audio_given audio_file then Some "aac" else None);
           last],
          inr tt) /\
       (log = [] \/ log = [ErrorAddingAudio]) /\
       (last = VideoSaved output_file \/ last = ErrorCreatingVideo)).
Proof.
  intros Hlist Hne.
  destruct (for_images_trace w image_folder d template resolution
              (image_files names) 0%nat [] []) as (ps & r & E).
  cbn [app] in E. exists ps.
  assert (Hrun :
    create_video_from_images w image_folder output_file fps d template
      background_color resolution audio_file []
    = match r with
      | inl e => (map ErrorLoadingImage ps, inl e)
      | inr cs =>
          let (tr, s) :=
            add_audio w audio_file
              (MoviePy.Composite
                 (background d background_color resolution (image_files names) :: cs)
                 resolution)
              (map ErrorLoadingImage ps) in
          match s with
          | inl e => (tr, inl e)
          | inr video => write w output_file fps audio_file (List.length cs) video tr
          end
      end).
  { unfold create_video_from_images. unfold bind at 1. unfold ret. rewrite Hlist.
    destruct (image_files names) as [|f0 fs] eqn:En; [contradiction|].
    unfold bind. rewrite E. destruct r; reflexivity. }
  rewrite Hrun. clear Hrun.
  destruct r as [e|cs]; [left; exists e; reflexivity|]. right.
  destruct (add_audio_total w audio_file
              (MoviePy.Composite
                 (background d background_color resolution (image_files names) :: cs)
                 resolution)
              (map ErrorLoadingImage ps))
    as (log & video & Ea & _ & _ & _ & Hlog).
  rewrite Ea, write_spec. rewrite <- app_assoc.
  eexists log, _, video, _. split; [reflexivity|]. split.
  - destruct Hlog as [[-> _] | [-> _]]; [left | right]; reflexivity.
  - destruct (write_ok w output_file); [left | right]; reflexivity.
Qed.

(** ** Empty folders and decode failures *)

Lemma failures_all (w : World) (image_folder : string) (files : list string) :
  failures w image_folder files = map (Py.path_join image_folder) files ->
  forall f, In f files -> load_image w (Py.path_join image_folder f) = None.
Proof.
  induction files as [|f0 r IH]; cbn [failures map]; intros Hfail f I; [destruct I|].
  destruct (load_image w (Py.path_join image_folder f0)) eqn:E0.
  - exfalso.
    assert (L : List.length (failures w image_folder r) = S (List.length r))
      by (rewrite Hfail; cbn [List.length]; rewrite length_map; reflexivity).
    pose proof (survivors_failures_length w image_folder r 0). lia.
  - injection Hfail as Hfail. destruct I as [<- | I]; [exact E0 | apply IH; assumption].
Qed.

Lemma for_images_none_decodes (w : World) (image_folder : string) (d : float)
  (template : string) (resolution : Z * Z) (files : list string) :
  (forall f, In f files -> load_image w (Py.path_join image_folder f) = None) ->
  forall i clips tr,
    for_images w image_folder d template resolution i files clips tr
    = (tr ++ map ErrorLoadingImage (map (Py.path_join image_folder) files), inr clips).
Proof.
  induction files as [|g r IH]; intros Hnone i clips tr; cbn [for_images map].
  - rewrite app_nil_r. reflexivity.
  - rewrite (Hnone g) by (left; reflexivity).
    unfold bind, emit. rewrite IH by (intros f I; apply Hnone; right; exact I).
    rewrite <- app_assoc. reflexivity.
Qed.

(** C5, as stated, fails when files match but none decodes: the folder
    holds only a.png, which is corrupt.  No asset survives, yet the run
    goes on, hands a composition of the background alone to the encoder,
    and returns normally. *)
Lemma zero_survivors_still_encoded_counterexample :
  survivors world_all_corrupt "imgs" 0 (image_files ["a.png"]) = [] /\
  exists video,
    run world_all_corrupt 5 "slide_in" None
    = ([ErrorLoadingImage "imgs/a.png"; CreatingVideo 0;
        WriteVideofile video "output.mp4" 30 None; VideoSaved "output.mp4"],
       inr tt) /\
    List.length (MoviePy.clips video) = 1%nat.
Proof.
  split; [reflexivity|]. eexists. split; [vm_compute; reflexivity | reflexivity].
Qed.

(** C5, amended: the run stops with its message, before any clip is built
    and before the encoder is called, exactly when no name of the folder
    passes the extension filter; the test is made on the file names, before
    any decoding.  With a matched file the message is never printed, and,
    when the loop body raises on no image that decodes, the run goes on to
    the encoder, also when no file decodes at all. *)
Theorem aborts_iff_no_name_matches
  (w : World) (image_folder output_file : string) (fps : Z) (d : float)
  (template : string) (background_color : Z * Z * Z) (resolution : Z * Z)
  (audio_file : option string) (names : list string) :
  listdir w image_folder = Some names ->
  (image_files names = [] <-> forall f, In f names -> is_image_name f = false) /\
  (image_files names = [] ->
     exists tr,
       create_video_from_images w image_folder output_file fps d template
         background_color resolution audio_file [] = (tr, inr tt) /\
       tr = [NoImageFilesFound image_folder] /\ encoded tr = []) /\
  (image_files names <> [] ->
     ~ In (NoImageFilesFound image_folder)
          (fst (create_video_from_images w image_folder output_file fps d template
                  background_color resolution audio_file []))) /\
  (image_files names <> [] ->
   images_placeable w d template resolution ->
     exists tr video,
       create_video_from_images w image_folder output_file fps d template
         background_color resolution audio_file [] = (tr, inr tt) /\
       encoded tr = [video]) /\
  (image_files names <> [] ->
   failures w image_folder (image_files names)
   = map (Py.path_join image_folder) (image_files names) ->
     exists tr video,
       create_video_from_images w image_folder output_file fps d template
         background_color resolution audio_file [] = (tr, inr tt) /\
       encoded tr = [video] /\
       List.length (MoviePy.clips video) = 1%nat).
Proof.
  intros Hlist. split; [apply image_files_nil|]. split.
  { intros E. eexists. split; [apply run_no_images with (names := names); assumption|].
    split; reflexivity. }
  split.
  { intros Hne.
    destruct (run_cases w image_folder output_file fps d template background_color
                resolution audio_file names Hlist Hne)
      as (ps & [(e & ->) | (log & n & video & last & -> & Hlog & Hlast)]); cbn [fst].
    - intros I. apply load_errors_only in I. destruct I as (p & E & _). discriminate E.
    - intros I. apply in_app_or in I. destruct I as [I | I].
      + apply load_errors_only in I. destruct I as (p & E & _). discriminate E.
      + apply in_app_or in I. destruct I as [I | I].
        * destruct Hlog as [-> | ->]; [destruct I|].
          destruct I as [E | []]. discriminate E.
        * destruct I as [E | [E | [E | []]]]; try discriminate E.
          destruct Hlast as [-> | ->]; discriminate E. }
  split.
  { intros Hne Hplace.
    destruct (run_timeline w image_folder output_file fps d template background_color
                resolution audio_file names Hlist Hplace Hne)
      as (cs & log & video & Er & Ee & _).
    eexists _, video. split; [exact Er | exact Ee]. }
  intros Hne Hfail.
  pose proof (failures_all w image_folder (image_files names) Hfail) as Hnone.
  unfold create_video_from_images. unfold bind at 1. unfold ret. rewrite Hlist.
  destruct (image_files names) as [|f0 fs] eqn:En; [contradiction|].
  unfold bind.
  rewrite (for_images_none_decodes w image_folder d template resolution (f0 :: fs)
             Hnone 0%nat [] []).
  cbn [app].
  destruct (add_audio_total w audio_file
              (MoviePy.Composite
                 [background d background_color resolution (f0 :: fs)] resolution)
              (map ErrorLoadingImage (map (Py.path_join image_folder) (f0 :: fs))))
    as (log & video & Ea & Hc & _ & _ & Hlog).
  rewrite Ea, write_spec. eexists _, video. split; [reflexivity|].
  split.
  - rewrite !encoded_app, encoded_load_errors.
    destruct Hlog as [[-> _] | [-> _]]; destruct (write_ok w output_file); reflexivity.
  - rewrite Hc. reflexivity.
Qed.

Lemma aborts_iff_no_name_matches_witness :
  (image_files ["a.png"] = [] <-> forall f, In f ["a.png"] -> is_image_name f = false) /\
  (image_files ["a.png"] = [] ->
     exists tr,
       create_video_from_images world_all_corrupt "imgs" "output.mp4" 30 5 "zoom"
         (0, 0, 0) (1920, 1080) None [] = (tr, inr tt) /\
       tr = [NoImageFilesFound "imgs"] /\ encoded tr = []) /\
  (image_files ["a.png"] <> [] ->
     ~ In (NoImageFilesFound "imgs")
          (fst (create_video_from_images world_all_corrupt "imgs" "output.mp4" 30 5 "zoom"
                  (0, 0, 0) (1920, 1080) None []))) /\
  (image_files ["a.png"] <> [] ->
   images_placeable world_all_corrupt 5 "zoom" (1920, 1080) ->
     exists tr video,
       create_video_from_images world_all_corrupt "imgs" "output.mp4" 30 5 "zoom"
         (0, 0, 0) (1920, 1080) None [] = (tr, inr tt) /\
       encoded tr = [video]) /\
  (image_files ["a.png"] <> [] ->
   failures world_all_corrupt "imgs" (image_files ["a.png"])
   = map (Py.path_join "imgs") (image_files ["a.png"]) ->
     exists tr video,
       create_video_from_images world_all_corrupt "imgs" "output.mp4" 30 5 "zoom"
         (0, 0, 0) (1920, 1080) None [] = (tr, inr tt) /\
       encoded tr = [video] /\
       List.length (MoviePy.clips video) = 1%nat).
Proof.
  apply (aborts_iff_no_name_matches world_all_corrupt "imgs" "output.mp4" 30 5 "zoom"
           (0, 0, 0) (1920, 1080) None ["a.png"]).
  reflexivity.
Defined.



(** ** Audio failures *)

(** C8, as stated, fails for a missing audio file: no file song.mp3
    exists; the run encodes the video without audio and prints nothing
    about the audio. *)
Lemma missing_audio_gives_no_warning_counterexample :
  path_exists world_one_image "song.mp3" = false /\
  exists video,
    run world_one_image 5 "slide_in" (Some "song.mp3")
    = ([CreatingVideo 1;
        WriteVideofile video "output.mp4" 30 (Some "aac");
        VideoSaved "output.mp4"],
       inr tt) /\
    MoviePy.audio video = None.
Proof.
  split; [reflexivity|]. eexists. split; [vm_compute; reflexivity | reflexivity].
Qed.

(** C8, amended: when an audio file is named but is missing or fails to
    decode, the audio step raises nothing and leaves the composition as it
    is, without audio; it prints its message exactly when the file exists
    (and then fails to decode), and passes over a missing file without any
    message.  So the run is not aborted by the audio: when the loop body
    raises on no image that decodes, the run returns after handing a
    composition without audio to the encoder. *)
Theorem audio_failure_never_aborts
  (w : World) (image_folder output_file : string) (fps : Z) (d : float)
  (template : string) (background_color : Z * Z * Z) (resolution : Z * Z)
  (f : string) (names : list string) :
  listdir w image_folder = Some names ->
  images_placeable w d template resolution ->
  image_files names <> [] ->
  path_exists w f = false \/ load_audio w f = None ->
  (forall video tr0,
     exists log,
       add_audio w (Some f) video tr0 = (tr0 ++ log, inr video) /\
       (log = [] \/ log = [ErrorAddingAudio]) /\
       (log = [ErrorAddingAudio] <-> (f <> "" /\ path_exists w f = true))) /\
  exists tr video,
    create_video_from_images w image_folder output_file fps d template
      background_color resolution (Some f) [] = (tr, inr tt) /\
    encoded tr = [video] /\
    MoviePy.audio video = None /\
    (In ErrorAddingAudio tr <-> (f <> "" /\ path_exists w f = true)).
Proof.
  intros Hlist Hplace Hne Hbad.
  assert (Hex : audio_present w (Some f) = true <-> (f <> "" /\ path_exists w f = true)).
  { cbn [audio_present audio_given]. rewrite andb_true_iff, negb_true_iff, String.eqb_neq.
    reflexivity. }
  assert (Hstep : forall video tr0,
            add_audio w (Some f) video tr0
            = (tr0 ++ (if audio_present w (Some f) then [ErrorAddingAudio] else []),
               inr video)).
  { intros video tr0. destruct (audio_present w (Some f)) eqn:P.
    - destruct Hbad as [Hmiss | Hload].
      + destruct (proj1 Hex eq_refl) as [_ P']. congruence.
      + apply (add_audio_undecodable w (Some f) f video tr0 eq_refl P Hload).
    - rewrite app_nil_r. apply add_audio_absent. exact P. }
  split.
  { intros video tr0. eexists. split; [apply Hstep|].
    destruct (audio_present w (Some f)) eqn:P.
    - split; [right; reflexivity|]. split; [intros _; apply Hex; reflexivity | reflexivity].
    - split; [left; reflexivity|]. split; [discriminate|].
      intros H. apply Hex in H. discriminate H. }
  destruct (run_timeline w image_folder output_file fps d template background_color
              resolution (Some f) names Hlist Hplace Hne)
    as (cs & log & video & Er & Ee & _ & _ & _ & _ & Ea & _).
  rewrite Hstep in Ea.
  destruct (audio_present w (Some f)) eqn:P; cbn [app] in Ea; injection Ea as <- <-;
    eexists _, _; (split; [exact Er|]); (split; [exact Ee|]); (split; [reflexivity|]).
  - split; [intros _; apply Hex; reflexivity|]. intros _.
    apply in_or_app. right. apply in_or_app. left. left. reflexivity.
  - split; [|intros H; apply Hex in H; discriminate H]. intros I. exfalso.
    apply in_app_or in I. destruct I as [I | I].
    + apply load_errors_only in I. destruct I as (p & E & _). discriminate E.
    + cbn [app] in I. revert I. apply not_in_tail; intros; discriminate.
Qed.

Lemma audio_failure_never_aborts_witness :
  (forall video tr0,
     exists log,
       add_audio world_bad_audio (Some "song.mp3") video tr0 = (tr0 ++ log, inr video) /\
       (log = [] \/ log = [ErrorAddingAudio]) /\
       (log = [ErrorAddingAudio] <->
          ("song.mp3" <> "" /\ path_exists world_bad_audio "song.mp3" = true))) /\
  exists tr video,
    create_video_from_images world_bad_audio "imgs" "output.mp4" 30 5 "zoom"
      (0, 0, 0) (1920, 1080) (Some "song.mp3") [] = (tr, inr tt) /\
    encoded tr = [video] /\
    MoviePy.audio video = None /\
    (In ErrorAddingAudio tr <->
       ("song.mp3" <> "" /\ path_exists world_bad_audio "song.mp3" = true)).
Proof.
  apply (audio_failure_never_aborts world_bad_audio "imgs" "output.mp4" 30 5 "zoom"
           (0, 0, 0) (1920, 1080) "song.mp3" ["a.png"]).
  - reflexivity.
  - placeable_images.
  - vm_compute. discriminate.
  - right. reflexivity.
Defined.

(** ** The duration of the video *)




(** ** What the templates display *)

Lemma resizer_inr (ns sz : Z * Z) :
  MoviePy.resizer ns = inr sz -> sz = ns /\ 0 < fst ns /\ 0 < snd ns.
Proof.
  unfold MoviePy.resizer.
  destruct (0 <? fst ns) eqn:Hw; [|discriminate].
  destruct (0 <? snd ns) eqn:Hh; [|discriminate].
  cbn [andb]. intros H. injection H as <-.
  apply Z.ltb_lt in Hw, Hh. repeat split; assumption.
Qed.

Lemma resizer_positive (ns : Z * Z) :
  0 < fst ns -> 0 < snd ns -> MoviePy.resizer ns = inr ns.
Proof.
  intros Hw Hh. unfold MoviePy.resizer.
  apply Z.ltb_lt in Hw, Hh. rewrite Hw, Hh. reflexivity.
Qed.

Lemma resizer_empty (ns : Z * Z) :
  fst ns <= 0 \/ snd ns <= 0 -> MoviePy.resizer ns = inl Py.ValueError.
Proof.
  intros H. unfold MoviePy.resizer.
  destruct (0 <? fst ns) eqn:Hw; [|reflexivity].
  destruct (0 <? snd ns) eqn:Hh; [|reflexivity].
  apply Z.ltb_lt in Hw, Hh. lia.
Qed.

(** After [resize((w, h))] the frame at time 0 has the size [(w, h)],
    and so has every other frame that is produced. *)
Lemma resize_frames (ns : Z * Z) (c c' : MoviePy.Clip) :
  MoviePy.resize ns c = inr c' ->
  0 < fst ns /\ 0 < snd ns /\
  MoviePy.frame_size c' 0%float = inr ns /\
  (forall t sz, MoviePy.frame_size c' t = inr sz -> sz = ns) /\
  (forall t sz, MoviePy.frame_size c t = inr sz -> MoviePy.frame_size c' t = inr ns).
Proof.
  unfold MoviePy.resize. destruct (MoviePy.size c) as [|s0] eqn:Es; [discriminate|].
  intros H. pose proof (set_make_frame_shows _ _ _ H) as (_ & _ & Hf).
  unfold MoviePy.set_make_frame in H. unfold MoviePy.size in Es. rewrite Es in H.
  destruct (MoviePy.resizer ns) as [|s1] eqn:Er; [discriminate|].
  apply resizer_inr in Er. destruct Er as (-> & Hw & Hh).
  rewrite Hf. split; [exact Hw|]. split; [exact Hh|]. split.
  - rewrite Es. reflexivity.
  - split.
    + intros t sz. destruct (MoviePy.frame_size c t); [discriminate|].
      intros E. injection E as <-. reflexivity.
    + intros t sz ->. reflexivity.
Qed.

(** The clip after the two resizes of the "zoom" branch. *)
Lemma animate_zoom (d : float) (resolution : Z * Z) (c c' : MoviePy.Clip) :
  animate d "zoom" resolution c = inr c' ->
  exists isz ms ds k0,
    MoviePy.size c = inr isz /\
    max_size resolution isz = inr ms /\
    zoom_factor d 0 = inr k0 /\
    display_size ms = inr ds /\
    0 < fst ds /\ 0 < snd ds /\
    MoviePy.pos c' = MoviePy.Center /\
    MoviePy.frame_size c' 0%float = inr ds /\
    (forall t sz, MoviePy.frame_size c' t = inr sz -> sz = ds).
Proof.
  unfold animate, Py.bindE.
  destruct (MoviePy.size c) as [|isz] eqn:Es; [discriminate|].
  destruct (max_size resolution isz) as [|ms] eqn:Em; [discriminate|].
  cbn [String.eqb Ascii.eqb Bool.eqb].
  destruct (MoviePy.resize_fun (fun t => zoom_factor d t) c) as [|c1] eqn:E1;
    [discriminate|].
  destruct (display_size ms) as [|ds] eqn:Ed; [discriminate|].
  intros H.
  pose proof (resize_shows _ _ _ H) as (_ & Hp).
  pose proof (resize_frames _ _ _ H) as (Hw & Hh & H0 & Hall & _).
  assert (Hk : exists k0, zoom_factor d 0 = inr k0).
  { unfold MoviePy.resize_fun in E1. rewrite Es in E1.
    unfold MoviePy.set_make_frame in E1. unfold MoviePy.size in Es. rewrite Es in E1.
    destruct (zoom_factor d 0) as [|k0]; [discriminate|]. exists k0. reflexivity. }
  destruct Hk as (k0 & Hk).
  exists isz, ms, ds, k0.
  split; [reflexivity|]. split; [exact Em|]. split; [exact Hk|].
  split; [exact Ed|]. split; [exact Hw|]. split; [exact Hh|].
  split; [rewrite Hp; reflexivity|]. split; [exact H0 | exact Hall].
Qed.

(** The clip after the one resize of the other branch. *)
Lemma animate_other (d : float) (template : string) (resolution : Z * Z)
  (c : MoviePy.Clip) (isz ms : Z * Z) :
  String.eqb template "zoom" = false ->
  MoviePy.size c = inr isz ->
  max_size resolution isz = inr ms ->
  animate d template resolution c = MoviePy.resize ms c.
Proof.
  intros Ht Es Em. unfold animate, Py.bindE. rewrite Es, Em, Ht. reflexivity.
Qed.

(** When the loop body returns, in elementary terms.  With a template
    other than "zoom": the image has a fitted size with positive sides. *)
Lemma animate_succeeds_other (d : float) (template : string) (resolution : Z * Z)
  (p : string) (sz : Z * Z) :
  String.eqb template "zoom" = false ->
  succeeds (animate d template resolution (MoviePy.ImageClip p sz)) = true <->
  exists ms, max_size resolution sz = inr ms /\ 0 < fst ms /\ 0 < snd ms.
Proof.
  intros Ht. unfold animate, Py.bindE.
  cbn [MoviePy.size MoviePy.ImageClip MoviePy.frame_size]. rewrite Ht.
  destruct (max_size resolution sz) as [e|ms].
  - split; [discriminate|]. intros (ms & E & _). discriminate E.
  - unfold MoviePy.resize, MoviePy.size, MoviePy.set_make_frame.
    cbn [MoviePy.frame_size].
    destruct (MoviePy.resizer ms) as [e|s1] eqn:Er.
    + split; [discriminate|]. intros (ms' & E & Hw & Hh). injection E as <-.
      rewrite (resizer_positive ms Hw Hh) in Er. discriminate Er.
    + split; [|reflexivity]. intros _. apply resizer_inr in Er.
      exists ms. split; [reflexivity | tauto].
Qed.

(** With "zoom": the image has a fitted size, the zoom factor at time 0 is
    defined (the duration is not zero), the image scaled by it has
    positive sides, and so has the enlarged size. *)
Lemma animate_succeeds_zoom (d : float) (resolution : Z * Z) (p : string) (sz : Z * Z) :
  succeeds (animate d "zoom" resolution (MoviePy.ImageClip p sz)) = true <->
  exists ms k0 s0 ds,
    max_size resolution sz = inr ms /\
    zoom_factor d 0 = inr k0 /\
    MoviePy.scaled sz k0 = inr s0 /\
    display_size ms = inr ds /\ 0 < fst ds /\ 0 < snd ds.
Proof.
  unfold animate, Py.bindE.
  cbn [MoviePy.size MoviePy.ImageClip MoviePy.frame_size String.eqb Ascii.eqb Bool.eqb].
  destruct (max_size resolution sz) as [e|ms].
  { split; [discriminate|]. intros (ms & k0 & s0 & ds & E & _). discriminate E. }
  unfold MoviePy.resize_fun, MoviePy.size, MoviePy.set_make_frame.
  cbn [MoviePy.frame_size MoviePy.ImageClip].
  destruct (zoom_factor d 0) as [e|k0] eqn:Ez.
  { split; [discriminate|]. intros (ms' & k & s0 & ds & _ & E & _). discriminate E. }
  destruct (MoviePy.scaled sz k0) as [e|s0] eqn:Es.
  { split; [discriminate|]. intros (ms' & k & s & ds & _ & Ek & E & _).
    injection Ek as <-. rewrite Es in E. discriminate E. }
  destruct (display_size ms) as [e|ds] eqn:Ed.
  { split; [discriminate|]. intros (ms' & k & s & ds & Em & _ & _ & E & _).
    injection Em as <-. rewrite Ed in E. discriminate E. }
  unfold MoviePy.resize, MoviePy.size, MoviePy.set_make_frame, MoviePy.set_position.
  cbn [MoviePy.frame_size MoviePy.ImageClip]. rewrite Ez, Es.
  destruct (MoviePy.resizer ds) as [e|s1] eqn:Er.
  - split; [discriminate|]. intros (ms' & k & s & ds' & Em & _ & _ & E & Hw & Hh).
    injection Em as <-. rewrite Ed in E. injection E as <-.
    rewrite (resizer_positive ds Hw Hh) in Er. discriminate Er.
  - split; [|reflexivity]. intros _. apply resizer_inr in Er.
    exists ms, k0, s0, ds. repeat split; tauto.
Qed.

(** The precondition of the run-level statements, in these terms. *)
Lemma images_placeable_spec (w : World) (d : float) (template : string)
  (resolution : Z * Z) :
  images_placeable w d template resolution <->
  forall p sz, load_image w p = Some sz ->
    succeeds (animate d template resolution (MoviePy.ImageClip p sz)) = true.
Proof.
  split; intros H p sz Hl.
  - destruct (H p sz Hl) as (c & ->). reflexivity.
  - specialize (H p sz Hl).
    destruct (animate d template resolution (MoviePy.ImageClip p sz)) as [e|c];
      [discriminate H | exists c; reflexivity].
Qed.

(** What the loop body adds to the clip that the resizes return. *)
Lemma place_inr (d : float) (template : string) (resolution : Z * Z) (i : nat)
  (c0 c : MoviePy.Clip) :
  place d template resolution i c0 = inr c ->
  exists c1,
    animate d template resolution c0 = inr c1 /\
    MoviePy.frame_size c = MoviePy.frame_size c1 /\
    MoviePy.pos c = MoviePy.pos c1 /\
    MoviePy.start c = (idx i * d)%float /\
    MoviePy.duration c = Some d /\
    MoviePy.end_ c = Some (idx i * d + d)%float.
Proof.
  unfold place, Py.bindE.
  destruct (animate d template resolution c0) as [|c1]; [discriminate|].
  intros H. injection H as <-. exists c1. repeat split.
Qed.

(** C2 on the code: template "zoom", a 1920x1080 image on a 1920x1080
    canvas, d = 5.  The fitted size is 1920x1080; the clip is centred and
    allocated 2304x1296; but its frames, at local times 0, 2.5 and 5 and
    at every other time at which a frame is produced, have that same size
    2304x1296, where the claim expects (0.8 + 0.4*t/5) times the fitted
    size, which is 1536x864 at t = 0. *)
Theorem zoom_frames_keep_one_size_at_input :
  exists c,
    match encoded (fst (run world_one_image 5 "zoom" None)) with
    | [video] => tl (MoviePy.clips video) = [c]
    | _ => False
    end /\
    place 5 "zoom" (1920, 1080) 0 (MoviePy.ImageClip "imgs/a.png" (1920, 1080))
    = inr c /\
    max_size (1920, 1080) (1920, 1080) = inr (1920, 1080) /\
    display_size (1920, 1080) = inr (2304, 1296) /\
    MoviePy.pos c = MoviePy.Center /\
    map (MoviePy.frame_size c) [0; 2.5; 5]%float
    = [inr (2304, 1296); inr (2304, 1296); inr (2304, 1296)] /\
    (forall t sz, MoviePy.frame_size c t = inr sz -> sz = (2304, 1296)) /\
    zoom_factor 5 0 = inr 0.8%float /\
    MoviePy.scaled (1920, 1080) 0.8 = inr (1536, 864).
Proof.
  destruct (place 5 "zoom" (1920, 1080) 0
              (MoviePy.ImageClip "imgs/a.png" (1920, 1080))) as [e|c] eqn:Ep.
  { exfalso.
    assert (Hs : succeeds (place 5 "zoom" (1920, 1080) 0
                             (MoviePy.ImageClip "imgs/a.png" (1920, 1080))) = true)
      by (vm_compute; reflexivity).
    rewrite Ep in Hs. discriminate Hs. }
  exists c. split.
  { assert (Hplace : images_placeable world_one_image 5 "zoom" (1920, 1080))
      by placeable_images.
    assert (Hne : image_files ["a.png"] <> []) by (vm_compute; discriminate).
    destruct (run_timeline world_one_image "imgs" "output.mp4" 30 5 "zoom" (0, 0, 0)
                (1920, 1080) None ["a.png"] eq_refl Hplace Hne)
      as (cs & log & video & Er & Ee & F & Hc & _).
    unfold run. rewrite Er. cbn [fst]. rewrite Ee, Hc. cbn [tl].
    assert (Hs : survivors world_one_image "imgs" 0 (image_files ["a.png"])
                 = [(0%nat, "imgs/a.png", (1920, 1080))]) by (vm_compute; reflexivity).
    rewrite Hs in F.
    inversion F as [|s c' ss cs' [Hpl _] Hrest]; subst.
    inversion Hrest; subst.
    unfold placed in Hpl. cbn [fst snd] in Hpl. rewrite Ep in Hpl.
    injection Hpl as <-. reflexivity. }
  split; [reflexivity|].
  destruct (place_inr _ _ _ _ _ _ Ep) as (c1 & Ea & Hf & Hp & _).
  destruct (animate_zoom _ _ _ _ Ea) as (isz & ms & ds & k0 & Es & Em & _ & Ed & _ & _ &
                                         Hc & H0 & Hall).
  assert (Ems : max_size (1920, 1080) (1920, 1080) = inr (1920, 1080))
    by (vm_compute; reflexivity).
  assert (Eds : display_size (1920, 1080) = inr (2304, 1296))
    by (vm_compute; reflexivity).
  cbn in Es. injection Es as <-. rewrite Ems in Em. injection Em as <-.
  rewrite Eds in Ed. injection Ed as <-.
  split; [exact Ems|]. split; [exact Eds|].
  split; [rewrite Hp; exact Hc|].
  split.
  { assert (Hv : map (fun t =>
                        match place 5 "zoom" (1920, 1080) 0
                                (MoviePy.ImageClip "imgs/a.png" (1920, 1080)) with
                        | inr c2 => MoviePy.frame_size c2 t
                        | inl e => inl e
                        end) [0; 2.5; 5]%float
                 = [inr (2304, 1296); inr (2304, 1296); inr (2304, 1296)])
      by (vm_compute; reflexivity).
    rewrite Ep in Hv. exact Hv. }
  split; [rewrite Hf; exact Hall|].
  split; vm_compute; reflexivity.
Qed.

(** C9 on the code: template "custom", a 100x100 image on a 1920x1080
    canvas, d = 5.  Nothing is raised and every frame has the fitted size
    1080x1080 for the 5 seconds of the clip; but the clip keeps the
    position (0, 0) of a fresh clip, so it is drawn from the top-left
    corner, where a centred clip would be drawn from (420, 0). *)
Theorem other_template_clip_is_not_centred_at_input :
  exists c,
    match encoded (fst (run world_small_image 5 "custom" None)) with
    | [video] => tl (MoviePy.clips video) = [c]
    | _ => False
    end /\
    place 5 "custom" (1920, 1080) 0 (MoviePy.ImageClip "imgs/a.png" (100, 100))
    = inr c /\
    max_size (1920, 1080) (100, 100) = inr (1080, 1080) /\
    (forall t, MoviePy.frame_size c t = inr (1080, 1080)) /\
    MoviePy.duration c = Some 5%float /\
    MoviePy.pos c = MoviePy.XY 0 0 /\
    MoviePy.blit_origin (1920, 1080) (1080, 1080) (MoviePy.pos c) = inr (0, 0) /\
    MoviePy.blit_origin (1920, 1080) (1080, 1080) MoviePy.Center = inr (420, 0).
Proof.
  eexists. split; [vm_compute; reflexivity|].
  split; [vm_compute; reflexivity|].
  split; [vm_compute; reflexivity|]. split; [intros t; reflexivity|].
  split; [reflexivity|]. split; [reflexivity|].
  split; vm_compute; reflexivity.
Qed.

(** * Further properties of [create_video_from_images] *)

(** ** The extension filter and the sort (lines 16-17) *)

Lemma substring_full (s : string) : substring 0 (String.length s) s = s.
Proof. induction s as [|c s IH]; cbn; [reflexivity | rewrite IH; reflexivity]. Qed.

Lemma length_app (p s : string) :
  String.length (p ++ s) = (String.length p + String.length s)%nat.
Proof. induction p as [|c p IH]; cbn; [reflexivity | rewrite IH; reflexivity]. Qed.

Lemma substring_app_suffix (p suf : string) :
  substring (String.length p) (String.length suf) (p ++ suf) = suf.
Proof.
  induction p as [|c p IH]; cbn [String.length append].
  - apply substring_full.
  - cbn [substring]. exact IH.
Qed.

Lemma substring_split (s : string) :
  forall k m, (k + m = String.length s)%nat ->
    s = (substring 0 k s ++ substring k m s)%string.
Proof.
  induction s as [|c s IH]; intros k m H; cbn [String.length] in H.
  - destruct k, m; try discriminate H. reflexivity.
  - destruct k as [|k].
    + destruct m as [|m]; [discriminate H|]. cbn [Nat.add] in H. injection H as H.
      cbn [substring append]. rewrite H, substring_full. reflexivity.
    + cbn [Nat.add] in H. injection H as H. cbn [substring].
      destruct k; cbn [append]; f_equal; apply (IH _ m); exact H.
Qed.

(** [s.endswith(suf)] holds exactly when [s] is some prefix followed by [suf]. *)
Lemma endswith1_spec (s suf : string) :
  Py.endswith1 s suf = true <-> exists p, s = (p ++ suf)%string.
Proof.
  unfold Py.endswith1. rewrite andb_true_iff, Nat.leb_le, String.eqb_eq. split.
  - intros [L E]. exists (substring 0 (String.length s - String.length suf) s).
    rewrite <- E at 2. apply substring_split. lia.
  - intros [p ->]. rewrite length_app. split; [lia|].
    replace (String.length p + String.length suf - String.length suf)%nat
      with (String.length p) by lia.
    apply substring_app_suffix.
Qed.

Lemma lower_ascii_idem (c : ascii) : Py.lower_ascii (Py.lower_ascii c) = Py.lower_ascii c.
Proof.
  destruct c as [[] [] [] [] [] [] [] []]; reflexivity.
Qed.

Lemma lower_idem (s : string) : Py.lower (Py.lower s) = Py.lower s.
Proof.
  induction s as [|c s IH]; cbn [Py.lower]; [reflexivity|].
  rewrite lower_ascii_idem, IH. reflexivity.
Qed.

(** X1: a name passes the filter exactly when its lower-case form is some
    prefix followed by one of png, jpg, jpeg, bmp, gif; no dot is asked
    for, and the case of the name does not matter. *)
Theorem filter_matches_suffix_without_dot (f : string) :
  (is_image_name f = true <->
   exists p e, In e image_suffixes /\ Py.lower f = (p ++ e)%string) /\
  is_image_name (Py.lower f) = is_image_name f.
Proof.
  split.
  - unfold is_image_name, Py.endswith. rewrite existsb_exists. split.
    + intros (e & He & E). apply endswith1_spec in E. destruct E as [p E].
      exists p, e. split; assumption.
    + intros (p & e & He & E). exists e. split; [exact He|].
      apply endswith1_spec. exists p. exact E.
  - unfold is_image_name. rewrite lower_idem. reflexivity.
Qed.

(** X2: the list the loop runs over holds exactly the names of the listing
    that pass the filter, each as often as it is listed, in ascending
    order. *)
Theorem matched_files_are_the_sorted_filter (names : list string) :
  Permutation (filter is_image_name names) (image_files names) /\
  ascending (image_files names) /\
  (forall f, In f (image_files names) <-> In f names /\ is_image_name f = true).
Proof.
  split; [apply sort_perm|]. split; [apply image_files_ascending|].
  intros f. apply image_files_spec.
Qed.


(** ** The fitted size and what the templates do with it (lines 36-50) *)

(** X4: with template "zoom", when the loop body builds a clip from a
    decoded image, the image has a fitted size and an enlarged size (the
    fitted size times 1.2, truncated) with positive sides, the duration is
    not zero, the clip is centred, and its frame at time 0 and every other
    frame that is produced has one and the same size, the enlarged size:
    the zoom factor does not reach the displayed size. *)
Theorem zoom_clip_has_one_frame_size
  (d : float) (resolution : Z * Z) (i : nat) (p : string) (isz : Z * Z)
  (c : MoviePy.Clip) :
  place d "zoom" resolution i (MoviePy.ImageClip p isz) = inr c ->
  exists ms ds,
    max_size resolution isz = inr ms /\
    display_size ms = inr ds /\
    0 < fst ds /\ 0 < snd ds /\
    (d =? 0)%float = false /\
    MoviePy.pos c = MoviePy.Center /\
    MoviePy.frame_size c 0%float = inr ds /\
    (forall t sz, MoviePy.frame_size c t = inr sz -> sz = ds).
Proof.
  intros Ep.
  destruct (place_inr _ _ _ _ _ _ Ep) as (c1 & Ea & Hf & Hp & _).
  destruct (animate_zoom _ _ _ _ Ea)
    as (isz' & ms & ds & k0 & Es & Em & Hk & Ed & Hw & Hh & Hc & H0 & Hall).
  cbn in Es. injection Es as <-.
  exists ms, ds. split; [exact Em|]. split; [exact Ed|].
  split; [exact Hw|]. split; [exact Hh|]. split.
  { unfold zoom_factor, Py.bindE, Py.truediv in Hk.
    destruct (d =? 0)%float; [discriminate Hk | reflexivity]. }
  split; [rewrite Hp; exact Hc|]. rewrite Hf. split; [exact H0 | exact Hall].
Qed.

Lemma zoom_clip_has_one_frame_size_witness :
  exists c ms ds,
    place 5 "zoom" (1920, 1080) 2 (MoviePy.ImageClip "imgs/e.gif" (4000, 3000)) = inr c /\
    max_size (1920, 1080) (4000, 3000) = inr ms /\
    display_size ms = inr ds /\
    0 < fst ds /\ 0 < snd ds /\
    (5 =? 0)%float = false /\
    MoviePy.pos c = MoviePy.Center /\
    MoviePy.frame_size c 0%float = inr ds /\
    (forall t sz, MoviePy.frame_size c t = inr sz -> sz = ds).
Proof.
  destruct (place 5 "zoom" (1920, 1080) 2
              (MoviePy.ImageClip "imgs/e.gif" (4000, 3000))) as [e|c] eqn:Ep.
  - exfalso.
    assert (Hs : succeeds (place 5 "zoom" (1920, 1080) 2
                             (MoviePy.ImageClip "imgs/e.gif" (4000, 3000))) = true)
      by (vm_compute; reflexivity).
    rewrite Ep in Hs. discriminate Hs.
  - exists c.
    destruct (zoom_clip_has_one_frame_size 5 (1920, 1080) 2 "imgs/e.gif" (4000, 3000) c Ep)
      as (ms & ds & H).
    exists ms, ds. split; [reflexivity | exact H].
Defined.

(** X5: with any template other than "zoom", whatever the duration (zero
    included), a decoded image whose fitted size has positive sides gives
    a clip that has the fitted size in every frame, keeps the position
    (0, 0) of a fresh clip and fills the slot of its loop index; a fitted
    size with a side that is not positive makes the loop body raise
    ValueError. *)
Theorem other_template_clip_is_fitted_at_origin
  (d : float) (template : string) (resolution : Z * Z) (i : nat) (p : string)
  (isz ms : Z * Z) :
  template <> "zoom" ->
  max_size resolution isz = inr ms ->
  (0 < fst ms -> 0 < snd ms ->
   exists c,
     place d template resolution i (MoviePy.ImageClip p isz) = inr c /\
     (forall t, MoviePy.frame_size c t = inr ms) /\
     MoviePy.pos c = MoviePy.XY 0 0 /\
     MoviePy.shows c = MoviePy.FromFile p /\
     MoviePy.start c = (idx i * d)%float /\
     MoviePy.duration c = Some d /\
     MoviePy.end_ c = Some (idx i * d + d)%float) /\
  (fst ms <= 0 \/ snd ms <= 0 ->
   place d template resolution i (MoviePy.ImageClip p isz) = inl Py.ValueError).
Proof.
  intros Ht Em. apply String.eqb_neq in Ht.
  pose proof (animate_other d template resolution (MoviePy.ImageClip p isz) isz ms
                Ht eq_refl Em) as Ea.
  unfold MoviePy.resize, MoviePy.size, MoviePy.set_make_frame in Ea.
  cbn [MoviePy.frame_size MoviePy.ImageClip] in Ea.
  split.
  - intros Hw Hh. pose proof (resizer_positive ms Hw Hh) as Er. rewrite Er in Ea.
    unfold place, Py.bindE. rewrite Ea. eexists. split; [reflexivity|].
    cbn -[idx PrimFloat.mul PrimFloat.add]. repeat split.
  - intros Hz. rewrite (resizer_empty ms Hz) in Ea.
    unfold place, Py.bindE. rewrite Ea. reflexivity.
Qed.

Lemma other_template_clip_is_fitted_at_origin_witness :
  (0 < fst (1440, 1080) -> 0 < snd (1440, 1080) ->
   exists c,
     place 0 "fade" (1920, 1080) 3 (MoviePy.ImageClip "imgs/a.png" (640, 480)) = inr c /\
     (forall t, MoviePy.frame_size c t = inr (1440, 1080)) /\
     MoviePy.pos c = MoviePy.XY 0 0 /\
     MoviePy.shows c = MoviePy.FromFile "imgs/a.png" /\
     MoviePy.start c = (idx 3 * 0)%float /\
     MoviePy.duration c = Some 0%float /\
     MoviePy.end_ c = Some (idx 3 * 0 + 0)%float) /\
  (fst (1440, 1080) <= 0 \/ snd (1440, 1080) <= 0 ->
   place 0 "fade" (1920, 1080) 3 (MoviePy.ImageClip "imgs/a.png" (640, 480))
   = inl Py.ValueError).
Proof.
  apply (other_template_clip_is_fitted_at_origin 0 "fade" (1920, 1080) 3 "imgs/a.png"
           (640, 480) (1440, 1080)); [discriminate | vm_compute; reflexivity].
Defined.

(** ** The template only matters through "zoom" (line 41) *)

Lemma place_template (d : float) (t1 t2 : string) (resolution : Z * Z) (i : nat)
  (c : MoviePy.Clip) :
  String.eqb t1 "zoom" = String.eqb t2 "zoom" ->
  place d t1 resolution i c = place d t2 resolution i c.
Proof. intros E. unfold place, animate. rewrite E. reflexivity. Qed.

Lemma for_images_template (w : World) (image_folder : string) (d : float) (t1 t2 : string)
  (resolution : Z * Z) (files : list string) :
  String.eqb t1 "zoom" = String.eqb t2 "zoom" ->
  forall i clips tr,
    for_images w image_folder d t1 resolution i files clips tr
    = for_images w image_folder d t2 resolution i files clips tr.
Proof.
  intros E. induction files as [|f r IH]; intros i clips tr; cbn [for_images]; [reflexivity|].
  destruct (load_image w (Py.path_join image_folder f)) as [sz|].
  - unfold bind, lift. rewrite (place_template d t1 t2 resolution i _ E).
    destruct (place d t2 resolution i (MoviePy.ImageClip (Py.path_join image_folder f) sz));
      [reflexivity | apply IH].
  - unfold bind, emit. apply IH.
Qed.

(** X6: two templates that are both different from "zoom" (slide_in,
    fade, rotate, custom or any other string) give the same run: the same
    trace, the same composition, the same result, in every environment. *)
Theorem templates_other_than_zoom_run_alike
  (w : World) (image_folder output_file : string) (fps : Z) (d : float)
  (t1 t2 : string) (background_color : Z * Z * Z) (resolution : Z * Z)
  (audio_file : option string) (tr : list event) :
  t1 <> "zoom" -> t2 <> "zoom" ->
  create_video_from_images w image_folder output_file fps d t1
    background_color resolution audio_file tr
  = create_video_from_images w image_folder output_file fps d t2
      background_color resolution audio_file tr.
Proof.
  intros H1 H2. apply String.eqb_neq in H1, H2.
  assert (E : String.eqb t1 "zoom" = String.eqb t2 "zoom") by congruence.
  unfold create_video_from_images, bind.
  destruct (match listdir w image_folder with
            | Some names => ret names
            | None => raise Py.OSError
            end tr) as [tr' [e|names]]; [reflexivity|].
  destruct (image_files names) as [|f0 fs]; [reflexivity|].
  rewrite (for_images_template w image_folder d t1 t2 resolution (f0 :: fs) E).
  reflexivity.
Qed.

Lemma templates_other_than_zoom_run_alike_witness :
  create_video_from_images world_five "imgs" "output.mp4" 30 5 "slide_in"
    (0, 0, 0) (1920, 1080) None []
  = create_video_from_images world_five "imgs" "output.mp4" 30 5 "rotate"
      (0, 0, 0) (1920, 1080) None [].
Proof.
  apply (templates_other_than_zoom_run_alike world_five "imgs" "output.mp4" 30 5
           "slide_in" "rotate" (0, 0, 0) (1920, 1080) None []); discriminate.
Defined.

(** ** A zero duration with "zoom" (lines 43-44) *)

Lemma place_zoom_zero (d : float) (resolution : Z * Z) (i : nat) (p : string)
  (isz ms : Z * Z) :
  (d =? 0)%float = true ->
  max_size resolution isz = inr ms ->
  place d "zoom" resolution i (MoviePy.ImageClip p isz) = inl Py.ZeroDivisionError.
Proof.
  intros Hd Em. unfold place, animate, Py.bindE.
  cbn [MoviePy.size MoviePy.ImageClip MoviePy.frame_size].
  rewrite Em. cbn [String.eqb Ascii.eqb Bool.eqb].
  unfold MoviePy.resize_fun, MoviePy.size, MoviePy.set_make_frame.
  cbn [MoviePy.frame_size MoviePy.ImageClip].
  unfold zoom_factor, Py.bindE, Py.truediv. rewrite Hd. reflexivity.
Qed.

Lemma for_images_zoom_zero (w : World) (image_folder : string) (d : float)
  (resolution : Z * Z) (files : list string) :
  (forall p sz, load_image w p = Some sz -> exists ms, max_size resolution sz = inr ms) ->
  (d =? 0)%float = true ->
  forall i clips tr,
    survivors w image_folder i files <> [] ->
    for_images w image_folder d "zoom" resolution i files clips tr
    = (tr ++ map ErrorLoadingImage (leading_failures w image_folder files),
       inl Py.ZeroDivisionError).
Proof.
  intros Hfit Hd. induction files as [|f r IH]; intros i clips tr Hs;
    cbn [survivors for_images leading_failures] in *; [contradiction|].
  destruct (load_image w (Py.path_join image_folder f)) as [sz|] eqn:E.
  - destruct (Hfit _ _ E) as (ms & Em).
    unfold bind, lift.
    rewrite (place_zoom_zero d resolution i _ sz ms Hd Em).
    cbn [map]. rewrite app_nil_r. reflexivity.
  - unfold bind, emit. rewrite (IH (S i) clips _ Hs).
    cbn [map]. rewrite <- app_assoc. reflexivity.
Qed.

(** X7: with template "zoom" and a duration of zero, as soon as one
    matched file decodes (to an image that has a fitted size) the function
    raises ZeroDivisionError to its caller: nothing reaches the encoder,
    and the messages printed are exactly the decode failures of the files
    before the first one that decodes. *)
Theorem zoom_with_zero_duration_raises
  (w : World) (image_folder output_file : string) (fps : Z) (d : float)
  (background_color : Z * Z * Z) (resolution : Z * Z)
  (audio_file : option string) (names : list string) :
  listdir w image_folder = Some names ->
  (d =? 0)%float = true ->
  (forall p sz, load_image w p = Some sz -> exists ms, max_size resolution sz = inr ms) ->
  survivors w image_folder 0 (image_files names) <> [] ->
  create_video_from_images w image_folder output_file fps d "zoom"
    background_color resolution audio_file []
  = (map ErrorLoadingImage (leading_failures w image_folder (image_files names)),
     inl Py.ZeroDivisionError) /\
  encoded (fst (create_video_from_images w image_folder output_file fps d "zoom"
                  background_color resolution audio_file [])) = [].
Proof.
  intros Hlist Hd Hfit Hs.
  pose proof (for_images_zoom_zero w image_folder d resolution (image_files names)
                Hfit Hd 0%nat [] [] Hs) as Ep.
  cbn [app] in Ep.
  assert (Er : create_video_from_images w image_folder output_file fps d "zoom"
                 background_color resolution audio_file []
               = (map ErrorLoadingImage
                    (leading_failures w image_folder (image_files names)),
                  inl Py.ZeroDivisionError)).
  { unfold create_video_from_images. unfold bind at 1. unfold ret. rewrite Hlist.
    destruct (image_files names) as [|f0 fs]; [contradiction Hs; reflexivity|].
    unfold bind. rewrite Ep. reflexivity. }
  split; [exact Er|]. rewrite Er. cbn [fst]. apply encoded_load_errors.
Qed.

Lemma zoom_with_zero_duration_raises_witness :
  create_video_from_images world_first_corrupt "imgs" "output.mp4" 30 0 "zoom"
    (0, 0, 0) (1920, 1080) None []
  = (map ErrorLoadingImage
       (leading_failures world_first_corrupt "imgs"
          (image_files ["b.png"; "a.png"; "notes.txt"])),
     inl Py.ZeroDivisionError) /\
  encoded (fst (create_video_from_images world_first_corrupt "imgs" "output.mp4" 30 0
                  "zoom" (0, 0, 0) (1920, 1080) None [])) = [].
Proof.
  apply (zoom_with_zero_duration_raises world_first_corrupt "imgs" "output.mp4" 30 0
           (0, 0, 0) (1920, 1080) None ["b.png"; "a.png"; "notes.txt"]).
  - reflexivity.
  - reflexivity.
  - intros p sz H. cbn in H.
    destruct (String.eqb p "imgs/b.png"); [|discriminate H].
    injection H as <-. eexists. vm_compute. reflexivity.
  - vm_compute. discriminate.
Defined.

(** ** The encoder step and the audio step in a whole run (lines 57-78) *)

(** X8: a failure of the encoder is caught: the encoder step raises
    nothing, whatever the composition, and prints "Video saved" when the
    encoder completed and the error message when it raised.  So when the
    loop body raises on no image that decodes, the run returns normally
    after its one encoder call; "Video saved" is printed exactly when the
    encoder completed, and the error message exactly when it raised. *)
Theorem encoder_failure_is_reported_not_raised
  (w : World) (image_folder output_file : string) (fps : Z) (d : float)
  (template : string) (background_color : Z * Z * Z) (resolution : Z * Z)
  (audio_file : option string) (names : list string) :
  listdir w image_folder = Some names ->
  images_placeable w d template resolution ->
  image_files names <> [] ->
  (forall n video tr0,
     write w output_file fps audio_file n video tr0
     = (tr0 ++ [CreatingVideo n;
                WriteVideofile video output_file fps
                  (if audio_given audio_file then Some "aac" else None);
                if write_ok w output_file then VideoSaved output_file
                else ErrorCreatingVideo],
        inr tt)) /\
  exists tr video,
    create_video_from_images w image_folder output_file fps d template
      background_color resolution audio_file [] = (tr, inr tt) /\
    encoded tr = [video] /\
    (In (VideoSaved output_file) tr <-> write_ok w output_file = true) /\
    (In ErrorCreatingVideo tr <-> write_ok w output_file = false).
Proof.
  intros Hlist Hplace Hne.
  split; [intros n video tr0; apply write_spec|].
  destruct (run_timeline w image_folder output_file fps d template background_color
              resolution audio_file names Hlist Hplace Hne)
    as (cs & log & video & Er & Ee & _ & _ & _ & _ & _ & Hlog).
  eexists _, video. split; [exact Er|]. split; [exact Ee|]. split.
  - rewrite in_run_trace by (try exact Hlog; intros; discriminate).
    destruct (write_ok w output_file); split; intros H;
      try reflexivity; discriminate H.
  - rewrite in_run_trace by (try exact Hlog; intros; discriminate).
    destruct (write_ok w output_file); split; intros H;
      try reflexivity; discriminate H.
Qed.

Lemma encoder_failure_is_reported_not_raised_witness :
  (forall n video tr0,
     write (failing_encoder world_five) "output.mp4" 30 None n video tr0
     = (tr0 ++ [CreatingVideo n;
                WriteVideofile video "output.mp4" 30
                  (if audio_given None then Some "aac" else None);
                if write_ok (failing_encoder world_five) "output.mp4"
                then VideoSaved "output.mp4"
                else ErrorCreatingVideo],
        inr tt)) /\
  exists tr video,
    create_video_from_images (failing_encoder world_five) "imgs" "output.mp4" 30 5 "zoom"
      (0, 0, 0) (1920, 1080) None [] = (tr, inr tt) /\
    encoded tr = [video] /\
    (In (VideoSaved "output.mp4") tr
     <-> write_ok (failing_encoder world_five) "output.mp4" = true) /\
    (In ErrorCreatingVideo tr
     <-> write_ok (failing_encoder world_five) "output.mp4" = false).
Proof.
  apply (encoder_failure_is_reported_not_raised (failing_encoder world_five) "imgs"
           "output.mp4" 30 5 "zoom" (0, 0, 0) (1920, 1080) None
           ["e.gif"; "a.png"; "d.bmp"; "b.JPG"; "c.png"]).
  - reflexivity.
  - placeable_images.
  - vm_compute. discriminate.
Defined.

(** ** No audio named (lines 57, 74) *)

(** X17: when no audio file is named, or the name is the empty string,
    the existence of files is not even consulted: the audio step returns
    the composition as it is and prints nothing.  So when the loop body
    raises on no image that decodes, the composition handed to the encoder
    has no audio, no audio codec is asked for, and nothing is printed
    about audio. *)
Theorem no_audio_name_means_silent_video
  (w : World) (image_folder output_file : string) (fps : Z) (d : float)
  (template : string) (background_color : Z * Z * Z) (resolution : Z * Z)
  (audio_file : option string) (names : list string) :
  listdir w image_folder = Some names ->
  images_placeable w d template resolution ->
  image_files names <> [] ->
  audio_file = None \/ audio_file = Some "" ->
  (forall video tr0, add_audio w audio_file video tr0 = (tr0, inr video)) /\
  exists tr video,
    create_video_from_images w image_folder output_file fps d template
      background_color resolution audio_file [] = (tr, inr tt) /\
    encoded tr = [video] /\
    In (WriteVideofile video output_file fps None) tr /\
    MoviePy.audio video = None /\
    ~ In ErrorAddingAudio tr.
Proof.
  intros Hlist Hplace Hne Ha.
  assert (P : audio_present w audio_file = false) by (destruct Ha as [-> | ->]; reflexivity).
  assert (G : audio_given audio_file = false) by (destruct Ha as [-> | ->]; reflexivity).
  split; [intros video tr0; apply add_audio_absent; exact P|].
  destruct (run_timeline w image_folder output_file fps d template background_color
              resolution audio_file names Hlist Hplace Hne)
    as (cs & log & video & Er & Ee & _ & _ & _ & _ & Ea & _).
  rewrite (add_audio_absent w audio_file _ [] P) in Ea. injection Ea as <- <-.
  rewrite G in Er, Ee.
  eexists _, _. split; [exact Er|]. split; [exact Ee|]. split.
  { apply in_or_app. right. cbn. right. left. reflexivity. }
  split; [reflexivity|].
  intros I. apply in_app_or in I. destruct I as [I | I].
  - apply load_errors_only in I. destruct I as (p & E & _). discriminate E.
  - cbn [app] in I. revert I. apply not_in_tail; intros; discriminate.
Qed.

Lemma no_audio_name_means_silent_video_witness :
  (forall video tr0,
     add_audio world_short_audio (Some "") video tr0 = (tr0, inr video)) /\
  exists tr video,
    create_video_from_images world_short_audio "imgs" "output.mp4" 30 5 "zoom"
      (0, 0, 0) (1920, 1080) (Some "") [] = (tr, inr tt) /\
    encoded tr = [video] /\
    In (WriteVideofile video "output.mp4" 30 None) tr /\
    MoviePy.audio video = None /\
    ~ In ErrorAddingAudio tr.
Proof.
  apply (no_audio_name_means_silent_video world_short_audio "imgs" "output.mp4" 30 5
           "zoom" (0, 0, 0) (1920, 1080) (Some "") ["a.png"; "b.jpg"]).
  - reflexivity.
  - placeable_images.
  - vm_compute. discriminate.
  - right. reflexivity.
Defined.

(** ** Exceptions of the loop body (lines 36-52) *)

Lemma for_images_first_raises (w : World) (image_folder : string) (d : float)
  (template : string) (resolution : Z * Z) (files : list string) :
  forall i0 clips tr i p sz rest e,
    survivors w image_folder i0 files = (i, p, sz) :: rest ->
    place d template resolution i (MoviePy.ImageClip p sz) = inl e ->
    for_images w image_folder d template resolution i0 files clips tr
    = (tr ++ map ErrorLoadingImage (leading_failures w image_folder files), inl e).
Proof.
  induction files as [|f r IH]; intros i0 clips tr i p sz rest e Hs Hp;
    cbn [survivors for_images leading_failures] in *; [discriminate Hs|].
  destruct (load_image w (Py.path_join image_folder f)) as [sz0|].
  - injection Hs as <- <- <- _. unfold bind, lift. rewrite Hp.
    cbn [map]. rewrite app_nil_r. reflexivity.
  - unfold bind, emit. rewrite (IH (S i0) clips _ i p sz rest e Hs Hp).
    cbn [map]. rewrite <- app_assoc. reflexivity.
Qed.

(** X18: the fit and the resizes are outside every try block: when the
    loop body raises on the first matched file that decodes (ValueError
    from resize when a fitted side truncates to 0, as for a 1x5000 image
    on a 1920x1080 canvas), the function raises that exception to its
    caller; nothing reaches the encoder, and the messages printed are
    exactly the decode failures of the files before that one. *)
Theorem exception_of_first_image_reaches_caller
  (w : World) (image_folder output_file : string) (fps : Z) (d : float)
  (template : string) (background_color : Z * Z * Z) (resolution : Z * Z)
  (audio_file : option string) (names : list string)
  (i : nat) (p : string) (sz : Z * Z) (rest : list (nat * string * (Z * Z)))
  (e : Py.exn) :
  listdir w image_folder = Some names ->
  survivors w image_folder 0 (image_files names) = (i, p, sz) :: rest ->
  place d template resolution i (MoviePy.ImageClip p sz) = inl e ->
  create_video_from_images w image_folder output_file fps d template
    background_color resolution audio_file []
  = (map ErrorLoadingImage (leading_failures w image_folder (image_files names)),
     inl e) /\
  encoded (fst (create_video_from_images w image_folder output_file fps d template
                  background_color resolution audio_file [])) = [].
Proof.
  intros Hlist Hs Hp.
  pose proof (for_images_first_raises w image_folder d template resolution
                (image_files names) 0%nat [] [] i p sz rest e Hs Hp) as Ep.
  cbn [app] in Ep.
  assert (Er : create_video_from_images w image_folder output_file fps d template
                 background_color resolution audio_file []
               = (map ErrorLoadingImage
                    (leading_failures w image_folder (image_files names)),
                  inl e)).
  { unfold create_video_from_images. unfold bind at 1. unfold ret. rewrite Hlist.
    destruct (image_files names) as [|f0 fs]; [discriminate Hs|].
    unfold bind. rewrite Ep. reflexivity. }
  split; [exact Er|]. rewrite Er. cbn [fst]. apply encoded_load_errors.
Qed.

Lemma exception_of_first_image_reaches_caller_witness :
  create_video_from_images world_thin_image "imgs" "output.mp4" 30 5 "slide_in"
    (0, 0, 0) (1920, 1080) None []
  = (map ErrorLoadingImage
       (leading_failures world_thin_image "imgs" (image_files ["a.png"])),
     inl Py.ValueError) /\
  encoded (fst (create_video_from_images world_thin_image "imgs" "output.mp4" 30 5
                  "slide_in" (0, 0, 0) (1920, 1080) None [])) = [].
Proof.
  apply (exception_of_first_image_reaches_caller world_thin_image "imgs" "output.mp4"
           30 5 "slide_in" (0, 0, 0) (1920, 1080) None ["a.png"]
           0%nat "imgs/a.png" (1, 5000) []).
  - reflexivity.
  - vm_compute. reflexivity.
  - vm_compute. reflexivity.
Defined.

(** X19: with template "zoom" an image of a single pixel makes the
    function raise ValueError: its fitted size is 1080x1080, but the first
    resize evaluates the frame at time 0, whose sides are 0.8 times the
    image's own 1 pixel, truncated to 0. *)
Theorem one_pixel_image_under_zoom_raises :
  max_size (1920, 1080) (1, 1) = inr (1080, 1080) /\
  zoom_factor 5 0 = inr 0.8%float /\
  Py.int (0.8 * Py.float_of_int 1)%float = inr 0 /\
  MoviePy.scaled (1, 1) 0.8 = inl Py.ValueError /\
  run world_one_pixel 5 "zoom" None = ([], inl Py.ValueError).
Proof. repeat split; vm_compute; reflexivity. Qed.
